(** * Session context, profile synchroniser and resume list

    A shallow embedding of the authentication context
    ([contexts/AuthContext.tsx]) and of the dashboard component
    ([components/Dashboard.tsx]).  The asynchronous functions of the
    source are programs of a small free monad [Prog] whose commands are
    the awaited calls on the hosted platform, the clock, the console and
    the React state setters; [run] executes a program against an
    arbitrary environment and records the events in order. *)

From Stdlib Require Import String Ascii List Bool.
From stdpp Require Import base option strings gmap sorting.
Import ListNotations.

Local Open Scope string_scope.

(** ** JavaScript values that travel in [error] fields *)

Module AuthError.
(** [AuthError] of the identity provider's client: a subclass of [Error]. *)
Record t : Type := mk { message : string; status : nat }.
End AuthError.

Module PostgrestError.
(** The error object of the relational store's client. *)
Record t : Type := mk { code : string; message : string }.
End PostgrestError.

Inductive JsValue : Type :=
| VUndefined
| VNull
| VBool (b : bool)
| VNumber (n : Z)
| VString (s : string)
| VError (message : string)          (* an instance of [Error] *)
| VAuthError (e : AuthError.t)       (* [AuthError extends Error] *)
| VPostgrestError (e : PostgrestError.t)
| VObject (tag : string).            (* any other object *)

(** [if (v)]: JavaScript truthiness. *)
Definition truthy (v : JsValue) : bool :=
  match v with
  | VUndefined | VNull => false
  | VBool b => b
  | VNumber n => negb (Z.eqb n 0)
  | VString s => negb (String.eqb s "")
  | VError _ | VAuthError _ | VPostgrestError _ | VObject _ => true
  end.

(** [v instanceof Error]. *)
Definition instanceof_Error (v : JsValue) : bool :=
  match v with
  | VError _ | VAuthError _ => true
  | _ => false
  end.

(** [a || b] on an optional string [a] (absent is [undefined]) and a
    string [b]: [a] when it is a non-empty string, [b] otherwise. *)
Definition or_else (a : option string) (b : string) : string :=
  match a with
  | Some s => if String.eqb s "" then b else s
  | None => b
  end.

(** [error: e] for a nullable provider error. *)
Definition of_auth_error (e : option AuthError.t) : JsValue :=
  match e with Some e => VAuthError e | None => VNull end.

Definition of_postgrest_error (e : option PostgrestError.t) : JsValue :=
  match e with Some e => VPostgrestError e | None => VNull end.

(** ** Data model *)

Module UserMetadata.
Record t : Type := mk { name : option string; avatar_url : option string }.
End UserMetadata.

Module User.
Record t : Type := mk {
  id : string;
  email : option string;
  user_metadata : UserMetadata.t
}.
End User.

Module Session.
Record t : Type := mk { user : User.t; access_token : string }.
End Session.

Module AuthData.
(** The opaque [data] of the identity provider's replies. *)
Record t : Type := mk { user : option User.t; session : option Session.t }.
End AuthData.

Module Profile.
Record t : Type := mk {
  id : string;
  name : string;
  avatar_url : string;
  created_at : string;
  updated_at : string
}.

(** [{ ...prev, name: newName }] *)
Definition with_name (newName : string) (prev : t) : t :=
  mk (id prev) newName (avatar_url prev) (created_at prev) (updated_at prev).
End Profile.

Module ProfileUpdate.
(** The object passed to [.update(...)]. *)
Record t : Type := mk { name : string; avatar_url : string; updated_at : string }.
End ProfileUpdate.

Module Resume.
Record t : Type := mk {
  id : nat;
  user_id : string;
  original_file_name : string;
  enhanced_file_name : option string;
  storage_path : string;
  file_url : string;
  file_size : nat;
  file_type : string;
  job_description : option string;
  status : string;
  created_at : string
}.
End Resume.

(** ** Component state *)

Module AuthState.
(** The three [useState] cells of [AuthProvider]. *)
Record t : Type := mk {
  user : option User.t;
  session : option Session.t;
  loading : bool
}.
Definition init : t := mk None None true.
End AuthState.

Module DashState.
(** The [useState] cells of [Dashboard]. *)
Record t : Type := mk {
  profile : option Profile.t;
  resumes : list Resume.t;
  loading : bool;
  editingProfile : bool;
  newName : string;
  showUploadModal : bool
}.
Definition init : t := mk None [] true false "" false.
End DashState.

Record App : Type := mkApp { auth : AuthState.t; dash : DashState.t }.

(** ** Effects *)

(** A settled promise (or a synchronous expression that may throw). *)
Inductive Settled (A : Type) : Type :=
| Resolved (a : A)
| Rejected (v : JsValue).
Arguments Resolved {A} a.
Arguments Rejected {A} v.

(** The calls the source makes on its surroundings that may throw. *)
Inductive Call : Type :=
| window_location_origin
| auth_signUp (email password emailRedirectTo data_name : string)
| auth_signInWithPassword (email password : string)
| auth_signInWithOtp (email emailRedirectTo : string)
| auth_signOut
| profiles_update (values : ProfileUpdate.t) (eq_id : string)
| profiles_insert (values : Profile.t)
| profiles_insert_select_single (values : Profile.t)
| profiles_select_single (eq_id : string)
| resumes_select_order (eq_user_id order_column : string) (ascending : bool).

(** What each call resolves to: the destructured [{ data, error }]. *)
Definition Reply (c : Call) : Type :=
  match c with
  | window_location_origin => string
  | auth_signUp _ _ _ _ => AuthData.t * option AuthError.t
  | auth_signInWithPassword _ _ => AuthData.t * option AuthError.t
  | auth_signInWithOtp _ _ => option AuthError.t
  | auth_signOut => option AuthError.t
  | profiles_update _ _ => option PostgrestError.t
  | profiles_insert _ => option PostgrestError.t
  | profiles_insert_select_single _ => option Profile.t * option PostgrestError.t
  | profiles_select_single _ => option Profile.t * option PostgrestError.t
  | resumes_select_order _ _ _ => option (list Resume.t) * option PostgrestError.t
  end%type.

Inductive LogLevel : Type := level_log | level_error.

(** Programs: the body of an [async] function. *)
Inductive Prog (R : Type) : Type :=
| Ret (r : R)
| Throw (v : JsValue)
| Await (c : Call) (k : Settled (Reply c) -> Prog R)
| NewDate (k : string -> Prog R)
| Console (level : LogLevel) (label : string) (k : Prog R)
| SetState (f : App -> App) (k : Prog R).
Arguments Ret {R} r.
Arguments Throw {R} v.
Arguments Await {R} c k.
Arguments NewDate {R} k.
Arguments Console {R} level label k.
Arguments SetState {R} f k.

Fixpoint bind {A B : Type} (p : Prog A) (f : A -> Prog B) : Prog B :=
  match p with
  | Ret a => f a
  | Throw v => Throw v
  | Await c k => Await c (fun s => bind (k s) f)
  | NewDate k => NewDate (fun t => bind (k t) f)
  | Console l m k => Console l m (bind k f)
  | SetState g k => SetState g (bind k f)
  end.

#[global] Instance Prog_ret : MRet Prog := @Ret.
#[global] Instance Prog_bind : MBind Prog := fun A B f p => bind p f.

(** [try { p } catch (e) { h e }] *)
Fixpoint try_catch {R : Type} (p : Prog R) (h : JsValue -> Prog R) : Prog R :=
  match p with
  | Ret r => Ret r
  | Throw v => h v
  | Await c k => Await c (fun s => try_catch (k s) h)
  | NewDate k => NewDate (fun t => try_catch (k t) h)
  | Console l m k => Console l m (try_catch k h)
  | SetState g k => SetState g (try_catch k h)
  end.

(** [try { p } finally { f }] *)
Fixpoint try_finally {R : Type} (p : Prog R) (f : Prog unit) : Prog R :=
  match p with
  | Ret r => bind f (fun _ => Ret r)
  | Throw v => bind f (fun _ => Throw v)
  | Await c k => Await c (fun s => try_finally (k s) f)
  | NewDate k => NewDate (fun t => try_finally (k t) f)
  | Console l m k => Console l m (try_finally k f)
  | SetState g k => SetState g (try_finally k f)
  end.

(** [await c]: a rejection is thrown at the call site. *)
Definition await (c : Call) : Prog (Reply c) :=
  Await c (fun s => match s with Resolved a => Ret a | Rejected v => Throw v end).

(** [new Date().toISOString()] *)
Definition now : Prog string := NewDate Ret.

Definition console_error (label : string) : Prog unit := Console level_error label (Ret tt).
Definition console_log (label : string) : Prog unit := Console level_log label (Ret tt).
Definition set_state (f : App -> App) : Prog unit := SetState f (Ret tt).

(** ** Running a program against an environment *)

Inductive Event : Type :=
| EvAwait (c : Call) (s : Settled (Reply c))
| EvNewDate (iso : string)
| EvConsole (level : LogLevel) (label : string)
| EvSetState.

(** The surroundings: how calls settle and what the clock reads, both
    depending on (and changing) a state [W] of the outside world. *)
Record Env (W : Type) : Type := mkEnv {
  respond : forall c : Call, W -> Settled (Reply c) * W;
  clock : W -> string * W
}.
Arguments respond {W} e c w.
Arguments clock {W} e w.

Record Run (W R : Type) : Type := mkRun {
  result : Settled R;
  ui : App;
  world : W;
  trace : list Event
}.
Arguments mkRun {W R} result ui world trace.
Arguments result {W R} r.
Arguments ui {W R} r.
Arguments world {W R} r.
Arguments trace {W R} r.

Definition emit {W R : Type} (e : Event) (r : Run W R) : Run W R :=
  mkRun (result r) (ui r) (world r) (e :: trace r).

Fixpoint run {W R : Type} (env : Env W) (p : Prog R) (s : App) (w : W) : Run W R :=
  match p with
  | Ret r => mkRun (Resolved r) s w []
  | Throw v => mkRun (Rejected v) s w []
  | Await c k =>
      let '(a, w') := respond env c w in
      emit (EvAwait c a) (run env (k a) s w')
  | NewDate k =>
      let '(t, w') := clock env w in
      emit (EvNewDate t) (run env (k t) s w')
  | Console l m k => emit (EvConsole l m) (run env k s w)
  | SetState f k => emit EvSetState (run env k (f s) w)
  end.

(** The awaited calls of a trace, in order. *)
Fixpoint calls (tr : list Event) : list Call :=
  match tr with
  | [] => []
  | EvAwait c _ :: tr' => c :: calls tr'
  | _ :: tr' => calls tr'
  end.


(** ** [contexts/AuthContext.tsx] *)

Module SignUpResult.
(** [{ error, data? }]; [data = None] is an object without the field. *)
Record t : Type := mk { error : JsValue; data : option AuthData.t }.
End SignUpResult.

Module ErrorResult.
(** [{ error }] *)
Record t : Type := mk { error : JsValue }.
End ErrorResult.

Module AuthContext.

(** [error instanceof Error ? error : new Error('Unknown error')] *)
Definition normalize (e : JsValue) : JsValue :=
  if instanceof_Error e then e else VError "Unknown error".

Definition signUp (email password : string) (name : option string)
  : Prog SignUpResult.t :=
  try_catch
    (origin ← await window_location_origin;
     '(data, error) ← await (auth_signUp email password
                               (origin ++ "/auth/callback") (or_else name ""));
     match error with
     | Some e =>
         console_error "Sign up error:";;
         mret (SignUpResult.mk (VAuthError e) None)
     | None =>
         console_log "Sign up successful:";;
         mret (SignUpResult.mk VNull (Some data))
     end)
    (fun error =>
       console_error "Sign up catch error:";;
       mret (SignUpResult.mk (normalize error) None)).

Definition signIn (email password : string) : Prog ErrorResult.t :=
  try_catch
    ('(data, error) ← await (auth_signInWithPassword email password);
     match error with
     | Some e => mret (ErrorResult.mk (VAuthError e))
     | None => mret (ErrorResult.mk VNull)
     end)
    (fun error => mret (ErrorResult.mk (normalize error))).

Definition signInWithMagicLink (email : string) : Prog ErrorResult.t :=
  try_catch
    (origin ← await window_location_origin;
     error ← await (auth_signInWithOtp email (origin ++ "/auth/callback"));
     mret (ErrorResult.mk (of_auth_error error)))
    (fun error => mret (ErrorResult.mk error)).

Definition signOut : Prog unit :=
  error ← await auth_signOut;
  match error with
  | Some _ => console_error "Error signing out:"
  | None => mret tt
  end.

(** [updateError && updateError.code === 'PGRST116'] *)
Definition no_rows (updateError : option PostgrestError.t) : bool :=
  match updateError with
  | Some e => String.eqb (PostgrestError.code e) "PGRST116"
  | None => false
  end.

(** [user] is the state cell the closure was created with. *)
Definition updateProfile (user : option User.t)
    (name : string) (avatarUrl : option string) : Prog ErrorResult.t :=
  try_catch
    (match user with
     | None => mret (ErrorResult.mk (VString "No user found"))
     | Some user =>
         updated_at ← now;
         updateError ← await (profiles_update
                                (ProfileUpdate.mk name (or_else avatarUrl "") updated_at)
                                (User.id user));
         if no_rows updateError then
           created_at ← now;
           updated_at ← now;
           insertError ← await (profiles_insert
                                  (Profile.mk (User.id user) name (or_else avatarUrl "")
                                     created_at updated_at));
           mret (ErrorResult.mk (of_postgrest_error insertError))
         else
           mret (ErrorResult.mk (of_postgrest_error updateError))
     end)
    (fun error =>
       console_error "Profile update error:";;
       mret (ErrorResult.mk error)).

Definition setSession (session : option Session.t) : Prog unit :=
  set_state (fun s =>
    mkApp (AuthState.mk (AuthState.user (auth s)) session (AuthState.loading (auth s)))
          (dash s)).

Definition setUser (user : option User.t) : Prog unit :=
  set_state (fun s =>
    mkApp (AuthState.mk user (AuthState.session (auth s)) (AuthState.loading (auth s)))
          (dash s)).

Definition setLoading (loading : bool) : Prog unit :=
  set_state (fun s =>
    mkApp (AuthState.mk (AuthState.user (auth s)) (AuthState.session (auth s)) loading)
          (dash s)).

(** The callback registered with [supabase.auth.onAuthStateChange]
    (the [.then] callback of [getSession] has the same body). *)
Definition onAuthStateChange (event : string) (session : option Session.t)
  : Prog unit :=
  setSession session;;
  setUser (Session.user <$> session);;
  setLoading false.

End AuthContext.

(** ** [components/Dashboard.tsx] *)

Module Dashboard.

Definition update_dash (f : DashState.t -> DashState.t) : Prog unit :=
  set_state (fun s => mkApp (auth s) (f (dash s))).

Definition setProfile (f : option Profile.t -> option Profile.t) : Prog unit :=
  update_dash (fun d =>
    DashState.mk (f (DashState.profile d)) (DashState.resumes d)
      (DashState.loading d) (DashState.editingProfile d)
      (DashState.newName d) (DashState.showUploadModal d)).

Definition setResumes (f : list Resume.t -> list Resume.t) : Prog unit :=
  update_dash (fun d =>
    DashState.mk (DashState.profile d) (f (DashState.resumes d))
      (DashState.loading d) (DashState.editingProfile d)
      (DashState.newName d) (DashState.showUploadModal d)).

Definition setLoading (b : bool) : Prog unit :=
  update_dash (fun d =>
    DashState.mk (DashState.profile d) (DashState.resumes d)
      b (DashState.editingProfile d)
      (DashState.newName d) (DashState.showUploadModal d)).

Definition setEditingProfile (b : bool) : Prog unit :=
  update_dash (fun d =>
    DashState.mk (DashState.profile d) (DashState.resumes d)
      (DashState.loading d) b
      (DashState.newName d) (DashState.showUploadModal d)).

Definition setNewName (n : string) : Prog unit :=
  update_dash (fun d =>
    DashState.mk (DashState.profile d) (DashState.resumes d)
      (DashState.loading d) (DashState.editingProfile d)
      n (DashState.showUploadModal d)).

Definition setShowUploadModal (b : bool) : Prog unit :=
  update_dash (fun d =>
    DashState.mk (DashState.profile d) (DashState.resumes d)
      (DashState.loading d) (DashState.editingProfile d)
      (DashState.newName d) b).

(** [s.split(sep)] for a one-character separator. *)
Fixpoint split (sep : ascii) (s : string) : list string :=
  match s with
  | EmptyString => [""]
  | String c s' =>
      if Ascii.eqb c sep then "" :: split sep s'
      else match split sep s' with
           | h :: t => String c h :: t
           | [] => [String c ""]
           end
  end.

(** [email.split('@')[0]] *)
Definition local_part (email : string) : string :=
  hd "" (split "@"%char email).

(** [user.user_metadata?.name || user.email?.split('@')[0] || 'User'] *)
Definition default_name (user : User.t) : string :=
  or_else (UserMetadata.name (User.user_metadata user))
    (or_else (local_part <$> User.email user) "User").

(** The row passed to [.insert(...)] when the profile is missing. *)
Definition default_profile (user : User.t) (created_at updated_at : string)
  : Profile.t :=
  Profile.mk (User.id user) (default_name user)
    (or_else (UserMetadata.avatar_url (User.user_metadata user)) "")
    created_at updated_at.

(** [profileError.code === 'PGRST116'] *)
Definition not_found (profileError : PostgrestError.t) : bool :=
  String.eqb (PostgrestError.code profileError) "PGRST116".

Definition fetchUserData (user : option User.t) : Prog unit :=
  match user with
  | None => mret tt
  | Some user =>
      try_finally
        (try_catch
           ('(profileData, profileError) ← await (profiles_select_single (User.id user));
            match profileError with
            | Some e =>
                console_error "Error fetching profile:";;
                if not_found e then
                  created_at ← now;
                  updated_at ← now;
                  '(newProfile, createError) ←
                    await (profiles_insert_select_single
                             (default_profile user created_at updated_at));
                  match createError, newProfile with
                  | None, Some p =>
                      setProfile (fun _ => Some p);;
                      setNewName (or_else (Some (Profile.name p)) "")
                  | _, _ => mret tt
                  end
                else mret tt
            | None =>
                setProfile (fun _ => profileData);;
                match profileData with
                | Some p => setNewName (or_else (Some (Profile.name p)) "")
                | None => Throw (VError "TypeError: profileData is null")
                end
            end;;
            '(resumeData, resumeError) ←
              await (resumes_select_order (User.id user) "created_at" false);
            match resumeError with
            | Some _ => console_error "Error fetching resumes:"
            | None => setResumes (fun _ => default [] resumeData)
            end)
           (fun _ => console_error "Error fetching user data:"))
        (setLoading false)
  end.

(** [updateProfile] comes from [useAuth()]; [newName] is the state
    cell the handler closed over.  ([e.preventDefault()] has no
    effect on the state modelled here.) *)
Definition handleUpdateProfile
    (updateProfile : string -> option string -> Prog ErrorResult.t)
    (newName : string) : Prog unit :=
  try_catch
    (r ← updateProfile newName None;
     if truthy (ErrorResult.error r) then
       console_error "Error updating profile:"
     else
       setProfile (fun prev => Profile.with_name newName <$> prev);;
       setEditingProfile false)
    (fun _ => console_error "Error updating profile:").

Definition handleSignOut (signOut : Prog unit) : Prog unit := signOut.

Definition handleUploadSuccess (newResume : Resume.t) : Prog unit :=
  setResumes (fun prev => newResume :: prev);;
  setShowUploadModal false.

(** What the header renders: [profile?.name || 'User'] and [user?.email]. *)
Definition displayed_name (d : DashState.t) : string :=
  or_else (Profile.name <$> DashState.profile d) "User".

Definition displayed_email (user : option User.t) : option string :=
  user ≫= User.email.

End Dashboard.

(** ** A reference relational store *)

Module Store.

(** Modelled from the spec: the hosted relational store, which is not
    part of the repository.  The [profiles] table is keyed by [id]
    (its primary key), an update or a single-row fetch that matches no
    row reports the "no rows" condition [PGRST116], an insert of an
    existing key is refused, and the resumes of a user are returned in
    the requested order of [created_at].  [ticks] are the readings the
    clock will give, in order. *)
Record t : Type := mk {
  profiles : gmap string Profile.t;
  resumes : list Resume.t;
  ticks : list string
}.

Definition PGRST116 : PostgrestError.t :=
  PostgrestError.mk "PGRST116" "no rows returned".

Definition duplicate_key : PostgrestError.t :=
  PostgrestError.mk "23505" "duplicate key value violates unique constraint".

Definition undefined_column : PostgrestError.t :=
  PostgrestError.mk "42703" "column does not exist".

Definition epoch : string := "1970-01-01T00:00:00.000Z".

Definition with_profiles (p : gmap string Profile.t) (w : t) : t :=
  mk p (resumes w) (ticks w).

Definition apply_update (v : ProfileUpdate.t) (row : Profile.t) : Profile.t :=
  Profile.mk (Profile.id row) (ProfileUpdate.name v) (ProfileUpdate.avatar_url v)
    (Profile.created_at row) (ProfileUpdate.updated_at v).

(** Modelled from the spec: an update filtered by [id]; "no rows" when
    no row has that id. *)
Definition update (v : ProfileUpdate.t) (id : string) (w : t)
  : option PostgrestError.t * t :=
  match profiles w !! id with
  | Some row => (None, with_profiles (<[id := apply_update v row]> (profiles w)) w)
  | None => (Some PGRST116, w)
  end.

(** Modelled from the spec: an insert, refused when the key exists. *)
Definition insert (row : Profile.t) (w : t) : option PostgrestError.t * t :=
  match profiles w !! Profile.id row with
  | Some _ => (Some duplicate_key, w)
  | None => (None, with_profiles (<[Profile.id row := row]> (profiles w)) w)
  end.

(** Modelled from the spec: an insert that returns the inserted row. *)
Definition insert_select_single (row : Profile.t) (w : t)
  : (option Profile.t * option PostgrestError.t) * t :=
  match insert row w with
  | (None, w') => ((profiles w' !! Profile.id row, None), w')
  | (Some e, w') => ((None, Some e), w')
  end.

(** Modelled from the spec: the single-row fetch by [id]. *)
Definition select_single (id : string) (w : t)
  : option Profile.t * option PostgrestError.t :=
  match profiles w !! id with
  | Some row => (Some row, None)
  | None => (None, Some PGRST116)
  end.

(** [a] may stand before [b] when ordering by [created_at] descending. *)
Definition newer_first (a b : Resume.t) : Prop :=
  String.leb (Resume.created_at b) (Resume.created_at a) = true.

Definition older_first (a b : Resume.t) : Prop :=
  String.leb (Resume.created_at a) (Resume.created_at b) = true.

#[global] Instance newer_first_dec a b : Decision (newer_first a b).
Proof. unfold newer_first. apply _. Defined.

#[global] Instance older_first_dec a b : Decision (older_first a b).
Proof. unfold older_first. apply _. Defined.

Definition owned_by (uid : string) (r : Resume.t) : bool :=
  String.eqb (Resume.user_id r) uid.

(** Modelled from the spec: the rows owned by [uid], ordered by
    creation time as requested. *)
Definition select_order (uid column : string) (ascending : bool) (w : t)
  : option (list Resume.t) * option PostgrestError.t :=
  if String.eqb column "created_at" then
    let rows := List.filter (owned_by uid) (resumes w) in
    (Some (if ascending then merge_sort older_first rows
           else merge_sort newer_first rows), None)
  else (None, Some undefined_column).

Definition unreachable : JsValue := VError "Failed to fetch".

(** Modelled from the spec: the store answers the table calls; this
    world has no identity provider, whose calls are rejected. *)
Definition respond (c : Call) (w : t) : Settled (Reply c) * t :=
  match c as c0 return Settled (Reply c0) * t with
  | window_location_origin => (Resolved "http://localhost:3000", w)
  | auth_signUp _ _ _ _ => (Rejected unreachable, w)
  | auth_signInWithPassword _ _ => (Rejected unreachable, w)
  | auth_signInWithOtp _ _ => (Rejected unreachable, w)
  | auth_signOut => (Rejected unreachable, w)
  | profiles_update v id => let '(e, w') := update v id w in (Resolved e, w')
  | profiles_insert row => let '(e, w') := insert row w in (Resolved e, w')
  | profiles_insert_select_single row =>
      let '(r, w') := insert_select_single row w in (Resolved r, w')
  | profiles_select_single id => (Resolved (select_single id w), w)
  | resumes_select_order uid column ascending =>
      (Resolved (select_order uid column ascending w), w)
  end.

Definition clock (w : t) : string * t :=
  match ticks w with
  | tick :: rest => (tick, mk (profiles w) (resumes w) rest)
  | [] => (epoch, w)
  end.

Definition env : Env t := mkEnv t respond clock.

End Store.

(** A scripted environment: every call is answered by a fixed function
    and the clock always reads the same instant. *)
Definition scripted (answer : forall c : Call, Settled (Reply c)) (instant : string)
  : Env unit :=
  mkEnv unit (fun c w => (answer c, w)) (fun w => (instant, w)).

(** ** Ordering of the resume list *)

(** Timestamps are ISO-8601 strings; they are compared as strings. *)
Fixpoint sorted_desc (l : list Resume.t) : bool :=
  match l with
  | [] => true
  | a :: l' =>
      match l' with
      | [] => true
      | b :: _ => String.leb (Resume.created_at b) (Resume.created_at a) && sorted_desc l'
      end
  end.

(** [r] was created strictly later than every element of [l]. *)
Definition later_than_all (r : Resume.t) (l : list Resume.t) : bool :=
  forallb (fun x => String.ltb (Resume.created_at x) (Resume.created_at r)) l.

(** The awaited calls of a trace together with how they settled. *)
Definition awaited (tr : list Event) : list Event :=
  List.filter (fun e => match e with EvAwait _ _ => true | _ => false end) tr.

(** The update settled with the "no rows" condition. *)
Definition update_missed (o : Settled (option PostgrestError.t)) : bool :=
  match o with
  | Resolved e => AuthContext.no_rows e
  | Rejected _ => false
  end.

(** ** Observations on traces and states *)

(** [r] followed by [r']. *)
Definition and_then {W A B : Type} (r : Run W A) (r' : Run W B) : Run W B :=
  mkRun (result r') (ui r') (world r') (trace r ++ trace r')%list.

(** [c] occurs in [s]. *)
Fixpoint contains (c : ascii) (s : string) : bool :=
  match s with
  | EmptyString => false
  | String c' s' => Ascii.eqb c' c || contains c s'
  end.

(** The state a successful edit must leave: the loaded profile, if
    any, with [newName] as its name and its other fields as they
    were, and edit mode left. *)
Definition name_applied (newName : string) (s : App) : App :=
  mkApp (auth s)
    (DashState.mk
       (match DashState.profile (dash s) with
        | Some p =>
            Some (Profile.mk (Profile.id p) newName (Profile.avatar_url p)
                    (Profile.created_at p) (Profile.updated_at p))
        | None => None
        end)
       (DashState.resumes (dash s)) (DashState.loading (dash s)) false
       (DashState.newName (dash s)) (DashState.showUploadModal (dash s))).

(** How the environment settles call [c] in world [w], and the world
    it leaves. *)
Definition answer {W : Type} (env : Env W) (c : Call) (w : W) : Settled (Reply c) :=
  fst (respond env c w).

Definition after {W : Type} (env : Env W) (c : Call) (w : W) : W :=
  snd (respond env c w).

(** What the clock reads in world [w], and the world it leaves. *)
Definition read_clock {W : Type} (env : Env W) (w : W) : string := fst (clock env w).

Definition after_clock {W : Type} (env : Env W) (w : W) : W := snd (clock env w).

(** [lp] is the text of [email] before its first ['@'] (all of it when
    there is none). *)
Definition before_first_at (email lp : string) : Prop :=
  exists rest : string,
    email = (lp ++ rest)%string
    /\ contains "@" lp = false
    /\ (rest = "" \/ exists post, rest = String "@" post).

(** The naming rule of the default profile, in the words of the
    specification: the metadata name when there is a non-empty one,
    else the local part of the email when there is a non-empty one,
    else ["User"]. *)
Definition named_by_rule (user : User.t) (name : string) : Prop :=
  let fallback :=
    match User.email user with
    | Some email =>
        exists lp, before_first_at email lp
                   /\ name = (if String.eqb lp "" then "User" else lp)
    | None => name = "User"
    end in
  match UserMetadata.name (User.user_metadata user) with
  | Some n => if String.eqb n "" then fallback else name = n
  | None => fallback
  end.

(** [c] asks for rows of [resumes]. *)
Definition is_resume_query (c : Call) : bool :=
  match c with
  | resumes_select_order _ _ _ => true
  | _ => false
  end.

(** An environment in which every call is rejected with [v]. *)
Definition all_rejected (v : JsValue) : Env unit :=
  scripted (fun _ => Rejected v) Store.epoch.

Definition fresh_app : App := mkApp AuthState.init DashState.init.

Definition alice : User.t :=
  User.mk "6f1c" (Some "a@b.com") (UserMetadata.mk None None).

(** A store that refuses every update of [profiles] for lack of
    permission; no other call is expected. *)
Definition update_denied : Env unit :=
  scripted
    (fun c =>
       match c as c0 return Settled (Reply c0) with
       | profiles_update _ _ =>
           Resolved (Some (PostgrestError.mk "42501" "permission denied"))
       | _ => Rejected (VError "unexpected call")
       end)
    Store.epoch.

(** A resume of [alice] uploaded at [created_at]. *)
Definition resume_at (id : nat) (created_at : string) : Resume.t :=
  Resume.mk id "6f1c" "cv.pdf" None "6f1c/cv.pdf" "https://files.example/6f1c/cv.pdf"
    2048 "application/pdf" None "uploaded" created_at.

(** A dashboard that lists two resumes, the upload dialog open. *)
Definition listing : App :=
  mkApp AuthState.init
    (DashState.mk None
       [resume_at 2 "2025-07-02T10:00:00.000Z"; resume_at 1 "2025-07-01T09:30:00.000Z"]
       false false "" true).

(** A store that holds a profile of [alice] with an avatar. *)
Definition store_with_alice : Store.t :=
  Store.mk {[ "6f1c" := Profile.mk "6f1c" "Alice" "https://img.example/a.png"
                          "2025-06-01T08:00:00.000Z" "2025-06-01T08:00:00.000Z" ]}
    []
    ["2025-07-01T00:00:00.000Z"; "2025-07-02T00:00:00.000Z"; "2025-07-03T00:00:00.000Z"].

(** The rows passed to an insert on [profiles], in order. *)
Fixpoint profile_inserts (tr : list Event) : list Profile.t :=
  match tr with
  | [] => []
  | EvAwait (profiles_insert row) _ :: tr' => row :: profile_inserts tr'
  | EvAwait (profiles_insert_select_single row) _ :: tr' => row :: profile_inserts tr'
  | _ :: tr' => profile_inserts tr'
  end.

(** The profile fetch settled with the "not found" condition. *)
Definition fetch_missed (o : Settled (option Profile.t * option PostgrestError.t)) : bool :=
  match o with
  | Resolved (_, Some e) => Dashboard.not_found e
  | _ => false
  end.

(** [c] is not a resume query, or it asks for the resumes of [uid]
    ordered by [created_at] descending. *)
Definition requests_desc (uid : string) (c : Call) : bool :=
  match c with
  | resumes_select_order u column ascending =>
      String.eqb u uid && String.eqb column "created_at" && negb ascending
  | _ => true
  end.

(** [n] calls of [p] one after the other, each awaited. *)
Fixpoint times (n : nat) (p : Prog ErrorResult.t) : Prog unit :=
  match n with
  | O => mret tt
  | S n' => p;; times n' p
  end.

(** The [k]-th coming reading of the store's clock. *)
Definition reading (k : nat) (w : Store.t) : string :=
  nth k (Store.ticks w) Store.epoch.

(** The [avatar_url] a call writes to [profiles], if it writes one. *)
Definition avatar_written (c : Call) : option string :=
  match c with
  | profiles_update v _ => Some (ProfileUpdate.avatar_url v)
  | profiles_insert row => Some (Profile.avatar_url row)
  | profiles_insert_select_single row => Some (Profile.avatar_url row)
  | _ => None
  end.

(** The row a call of [updateProfile] leaves when it is the [k]-th
    after [row1] was written: only [updated_at] moves. *)
Definition rewritten (name avatar : string) (row1 : Profile.t) (updated_at : string)
  : Profile.t :=
  Profile.mk (Profile.id row1) name avatar (Profile.created_at row1) updated_at.

(** ** The earlier dashboard *)

Module Dashboard0.

(** [fetchUserData] of the earlier version of the component, which
    has no fallback for a missing profile.  (Its [Resume] interface
    names fewer columns of the same rows.) *)
Definition fetchUserData (user : option User.t) : Prog unit :=
  match user with
  | None => mret tt
  | Some user =>
      try_finally
        (try_catch
           ('(profileData, profileError) ← await (profiles_select_single (User.id user));
            match profileError with
            | Some _ => console_error "Error fetching profile:"
            | None =>
                Dashboard.setProfile (fun _ => profileData);;
                match profileData with
                | Some p => Dashboard.setNewName (or_else (Some (Profile.name p)) "")
                | None => Throw (VError "TypeError: profileData is null")
                end
            end;;
            '(resumeData, resumeError) ←
              await (resumes_select_order (User.id user) "created_at" false);
            match resumeError with
            | Some _ => console_error "Error fetching resumes:"
            | None => Dashboard.setResumes (fun _ => default [] resumeData)
            end)
           (fun _ => console_error "Error fetching user data:"))
        (Dashboard.setLoading false)
  end.

End Dashboard0.

(** ** What a resume card renders *)

Module ResumeCard.

(** [s.includes(sub)] *)
Fixpoint includes (s sub : string) : bool :=
  String.prefix sub s
  || match s with
     | EmptyString => false
     | String _ s' => includes s' sub
     end.

(** [resume.file_type.includes('pdf') ? 'PDF' : 'DOCX'] *)
Definition file_type_label (file_type : string) : string :=
  if includes file_type "pdf" then "PDF" else "DOCX".

(** [d.substring(0, 100)] followed by [d.length > 100 ? '...' : ''];
    a string is taken as the sequence of its code units. *)
Definition job_description_preview (d : string) : string :=
  String.substring 0 100 d ++ (if Nat.ltb 100 (String.length d) then "..." else "").

End ResumeCard.

(** ** Sequences of events *)

(** The subscribed callback run on each event in turn. *)
Fixpoint auth_events (evs : list (string * option Session.t)) : Prog unit :=
  match evs with
  | [] => mret tt
  | (event, session) :: rest =>
      AuthContext.onAuthStateChange event session;; auth_events rest
  end.



(** ** Replies found in a trace *)

Fixpoint fetch_reply (tr : list Event)
  : option (Settled (option Profile.t * option PostgrestError.t)) :=
  match tr with
  | [] => None
  | EvAwait (profiles_select_single _) o :: _ => Some o
  | _ :: tr' => fetch_reply tr'
  end.

Fixpoint insert_select_reply (tr : list Event)
  : option (Settled (option Profile.t * option PostgrestError.t)) :=
  match tr with
  | [] => None
  | EvAwait (profiles_insert_select_single _) o :: _ => Some o
  | _ :: tr' => insert_select_reply tr'
  end.

Fixpoint resumes_reply (tr : list Event)
  : option (Settled (option (list Resume.t) * option PostgrestError.t)) :=
  match tr with
  | [] => None
  | EvAwait (resumes_select_order _ _ _) o :: _ => Some o
  | _ :: tr' => resumes_reply tr'
  end.



Fixpoint signIn_reply (tr : list Event)
  : option (Settled (AuthData.t * option AuthError.t)) :=
  match tr with
  | [] => None
  | EvAwait (auth_signInWithPassword _ _) o :: _ => Some o
  | _ :: tr' => signIn_reply tr'
  end.

Fixpoint otp_reply (tr : list Event) : option (Settled (option AuthError.t)) :=
  match tr with
  | [] => None
  | EvAwait (auth_signInWithOtp _ _) o :: _ => Some o
  | _ :: tr' => otp_reply tr'
  end.

Fixpoint signOut_reply (tr : list Event) : option (Settled (option AuthError.t)) :=
  match tr with
  | [] => None
  | EvAwait auth_signOut o :: _ => Some o
  | _ :: tr' => signOut_reply tr'
  end.

Fixpoint origin_reply (tr : list Event) : option (Settled string) :=
  match tr with
  | [] => None
  | EvAwait window_location_origin o :: _ => Some o
  | _ :: tr' => origin_reply tr'
  end.

(** A call on the identity provider. *)
Definition is_auth_call (c : Call) : bool :=
  match c with
  | auth_signUp _ _ _ _ | auth_signInWithPassword _ _
  | auth_signInWithOtp _ _ | auth_signOut => true
  | _ => false
  end.

(** A call on a table of the relational store. *)
Definition is_table_call (c : Call) : bool :=
  match c with
  | profiles_update _ _ | profiles_insert _ | profiles_insert_select_single _
  | profiles_select_single _ | resumes_select_order _ _ _ => true
  | _ => false
  end.

(** A call that writes to a table. *)
Definition is_table_write (c : Call) : bool :=
  match c with
  | profiles_update _ _ | profiles_insert _ | profiles_insert_select_single _ => true
  | _ => false
  end.

(** The [console.error] labels of a trace, in order. *)
Fixpoint errors_logged (tr : list Event) : list string :=
  match tr with
  | [] => []
  | EvConsole level_error label :: tr' => label :: errors_logged tr'
  | _ :: tr' => errors_logged tr'
  end.

(** * Properties *)

(** ** Generic facts about [run] *)

(** A [try] block that starts with [p]: the rest runs where [p] stops,
    and the handler takes over when [p] throws. *)
Lemma run_try_catch_bind {W A B} (env : Env W) (p : Prog A) (f : A -> Prog B)
    (h : JsValue -> Prog B) (s : App) (w : W) :
  run env (try_catch (bind p f) h) s w =
  and_then (run env p s w)
    (match result (run env p s w) with
     | Resolved a =>
         run env (try_catch (f a) h) (ui (run env p s w)) (world (run env p s w))
     | Rejected v =>
         run env (h v) (ui (run env p s w)) (world (run env p s w))
     end).
Proof.
  revert s w. induction p as [r|v|c k IH|k IH|l m k IH|g k IH]; intros s w; simpl.
  - by destruct (run env (try_catch (f r) h) s w).
  - by destruct (run env (h v) s w).
  - destruct (respond env c w) as [o w']. rewrite IH. reflexivity.
  - destruct (clock env w) as [t w']. rewrite IH. reflexivity.
  - rewrite IH. reflexivity.
  - rewrite IH. reflexivity.
Qed.

(** Sequencing: [p] first, then [f] on its value; a throw of [p] ends
    the whole. *)
Lemma run_bind {W A B} (env : Env W) (p : Prog A) (f : A -> Prog B) (s : App) (w : W) :
  run env (bind p f) s w =
  and_then (run env p s w)
    (match result (run env p s w) with
     | Resolved a => run env (f a) (ui (run env p s w)) (world (run env p s w))
     | Rejected v => mkRun (Rejected v) (ui (run env p s w)) (world (run env p s w)) []
     end).
Proof.
  revert s w. induction p as [r|v|c k IH|k IH|l m k IH|g k IH]; intros s w; simpl.
  - by destruct (run env (f r) s w).
  - reflexivity.
  - destruct (respond env c w) as [o w']. rewrite IH. reflexivity.
  - destruct (clock env w) as [t w']. rewrite IH. reflexivity.
  - rewrite IH. reflexivity.
  - rewrite IH. reflexivity.
Qed.

Lemma update_missed_spec (o : Settled (option PostgrestError.t)) :
  update_missed o = true <->
  exists e, o = Resolved (Some e) /\ PostgrestError.code e = "PGRST116".
Proof.
  destruct o as [[e|]|v]; simpl; split.
  - intros H. exists e. split; [reflexivity|]. by apply String.eqb_eq.
  - intros (e' & [= <-] & H). by apply String.eqb_eq.
  - discriminate.
  - intros (e' & [=] & _).
  - discriminate.
  - intros (e' & [=] & _).
Qed.

(** Destructs the next answer of the environment in the goal. *)
Ltac next_answer :=
  match goal with
  | |- context [respond ?env ?c ?w] =>
      let o := fresh "o" in let w' := fresh "w" in let E := fresh "E" in
      destruct (respond env c w) as [o w'] eqn:E; simpl in *
  | |- context [clock ?env ?w] =>
      let t := fresh "t" in let w' := fresh "w" in let E := fresh "E" in
      destruct (clock env w) as [t w'] eqn:E; simpl in *
  end.

(** Splits the reply [a] into the fields the source destructures. *)
Ltac split_reply a :=
  let T := type of a in
  let T' := eval cbn in T in
  lazymatch T' with
  | (_ * _)%type =>
      let d := fresh "d" in let e := fresh "e" in
      destruct a as [d e]; split_reply d; split_reply e
  | option _ => destruct a
  | _ => idtac
  end.

(** Follows a program through every way its calls can settle. *)
Ltac all_cases :=
  repeat first
    [ match goal with
      | |- context [Dashboard.not_found ?e] =>
          is_var e;
          let H := fresh "Hnf" in destruct (Dashboard.not_found e) eqn:H; simpl in *
      | |- context [AuthContext.no_rows ?e] =>
          is_var e;
          let H := fresh "Hnr" in destruct (AuthContext.no_rows e) eqn:H; simpl in *
      | |- context [String.eqb (PostgrestError.code ?e) ?k] =>
          is_var e;
          let H := fresh "Hcode" in
          destruct (String.eqb (PostgrestError.code e) k) eqn:H; simpl in *
      end
    | match goal with
      | |- context [respond ?env ?c ?w] =>
          is_var w;
          let o := fresh "o" in let w' := fresh "w" in
          destruct (respond env c w) as [o w']; simpl in *;
          let a := fresh "a" in let v := fresh "v" in
          destruct o as [a|v]; simpl in *; [split_reply a; simpl in *|]
      | |- context [clock ?env ?w] =>
          is_var w;
          let t := fresh "t" in let w' := fresh "w" in
          destruct (clock env w) as [t w']; simpl in *
      end ].

(** ** [updateProfile] *)

(** C1. For an authenticated user, [updateProfile] first issues an update
    of the profile row filtered by the user's id; it then issues an
    insert with the same name and avatar exactly when that update
    settled with the error code PGRST116, and issues nothing more on an
    update success, another error or a rejection. *)
Theorem updateProfile_update_then_insert_on_miss :
  forall (W : Type) (env : Env W) (s : App) (w : W)
         (user : User.t) (name : string) (avatarUrl : option string),
  exists (t0 : string) (o : Settled (option PostgrestError.t)) (rest : list Event),
    awaited (trace (run env (AuthContext.updateProfile (Some user) name avatarUrl) s w))
    = EvAwait (profiles_update
                 (ProfileUpdate.mk name (or_else avatarUrl "") t0) (User.id user)) o
      :: rest
    /\ (update_missed o = true <->
        exists e, o = Resolved (Some e) /\ PostgrestError.code e = "PGRST116")
    /\ if update_missed o
       then exists (t1 t2 : string) (o' : Settled (option PostgrestError.t)),
              rest = [EvAwait (profiles_insert
                                 (Profile.mk (User.id user) name (or_else avatarUrl "") t1 t2))
                              o']
       else rest = [].
Proof.
  intros W env s w user name avatarUrl.
  unfold AuthContext.updateProfile. simpl.
  destruct (clock env w) as [t0 w0] eqn:Ec. simpl.
  destruct (respond env _ w0) as [o w1] eqn:Eu. simpl.
  exists t0, o.
  pose proof (update_missed_spec o) as Hspec.
  destruct o as [updateError|v]; simpl in *.
  - destruct (AuthContext.no_rows updateError); simpl.
    + repeat next_answer.
      destruct o as [insertError|v]; simpl;
        (eexists; split; [reflexivity|]; split; [exact Hspec|eauto]).
    + exists []. split; [reflexivity|]. split; [exact Hspec|reflexivity].
  - exists []. split; [reflexivity|]. split; [exact Hspec|reflexivity].
Qed.

(** C9. Without an authenticated user, [updateProfile] resolves to
    [{ error: 'No user found' }], whose error is a string and not an
    [Error], and makes no call at all: no update, no insert. *)
Theorem updateProfile_no_user :
  forall (W : Type) (env : Env W) (s : App) (w : W)
         (name : string) (avatarUrl : option string),
    let r := run env (AuthContext.updateProfile None name avatarUrl) s w in
    result r = Resolved (ErrorResult.mk (VString "No user found"))
    /\ instanceof_Error (VString "No user found") = false
    /\ trace r = []
    /\ world r = w.
Proof. intros. subst r. simpl. auto. Qed.

(** ** [signUp] *)

(** C4. [signUp] reads the page origin and sends the sign-up request
    to the provider.  When the provider accepts it, the result is
    [{ error: null, data }] with the provider's data.  When the
    provider reports an error (a duplicate email, say), the result
    carries that error, which is not null, and no [data] field.  When
    the origin read or the request throws, the result carries a
    non-null error and no [data] field either. *)
Theorem signUp_result_shape :
  forall (W : Type) (env : Env W) (s : App) (w : W)
         (email password : string) (name : option string),
    let r := run env (AuthContext.signUp email password name) s w in
    match answer env window_location_origin w with
    | Resolved origin =>
        let request :=
          auth_signUp email password (origin ++ "/auth/callback")
            (match name with
             | Some n => if String.eqb n "" then "" else n
             | None => ""
             end) in
        calls (trace r) = [window_location_origin; request]
        /\ match answer env request (after env window_location_origin w) with
           | Resolved (data, None) =>
               result r = Resolved (SignUpResult.mk VNull (Some data))
           | Resolved (_, Some e) =>
               result r = Resolved (SignUpResult.mk (VAuthError e) None)
               /\ VAuthError e <> VNull
           | Rejected v =>
               exists e, result r = Resolved (SignUpResult.mk e None) /\ e <> VNull
           end
    | Rejected v =>
        calls (trace r) = [window_location_origin]
        /\ exists e, result r = Resolved (SignUpResult.mk e None) /\ e <> VNull
    end.
Proof.
  intros W env s w email password name r. subst r.
  unfold AuthContext.signUp, answer, after. simpl.
  assert (Hname : or_else name ""
                  = match name with
                    | Some n => if String.eqb n "" then "" else n
                    | None => ""
                    end) by (by destruct name).
  rewrite Hname. clear Hname.
  all_cases; repeat split; try reflexivity; try discriminate;
    (eexists; split; [reflexivity|]; unfold AuthContext.normalize;
     match goal with v : JsValue |- _ => by destruct v end).
Qed.

(** ** Sign-out and the auth-state subscription *)

(** C6. [signOut] (and the dashboard's [handleSignOut] around it) sets no
    state, whatever the provider answers: the user and the session are
    as before.  The subscribed callback, run on an event that carries
    no session, sets both to null and clears the loading flag; it makes
    no call and leaves the dashboard's state alone. *)
Theorem signOut_clears_state_on_event_only :
  forall (W : Type) (env : Env W) (s : App) (w : W) (event : string),
    ui (run env AuthContext.signOut s w) = s
    /\ ui (run env (Dashboard.handleSignOut AuthContext.signOut) s w) = s
    /\ let r := run env (AuthContext.onAuthStateChange event None) s w in
       result r = Resolved tt
       /\ AuthState.user (auth (ui r)) = None
       /\ AuthState.session (auth (ui r)) = None
       /\ AuthState.loading (auth (ui r)) = false
       /\ dash (ui r) = dash s
       /\ calls (trace r) = []
       /\ world r = w.
Proof.
  intros W env s w event.
  assert (Hout : ui (run env AuthContext.signOut s w) = s).
  { unfold AuthContext.signOut. simpl. next_answer.
    destruct o as [[e|]|v]; reflexivity. }
  split; [exact Hout|]. split; [exact Hout|].
  simpl. repeat split; reflexivity.
Qed.

(** ** Profile edits *)

Lemma updateProfile_sets_no_state {W} (env : Env W) s w user name avatarUrl :
  ui (run env (AuthContext.updateProfile user name avatarUrl) s w) = s.
Proof.
  unfold AuthContext.updateProfile. destruct user as [user|]; simpl; [|reflexivity].
  repeat next_answer. destruct o as [updateError|v]; simpl; [|reflexivity].
  destruct (AuthContext.no_rows updateError); simpl; [|reflexivity].
  repeat next_answer. destruct o as [insertError|v]; reflexivity.
Qed.

(** C7. Whatever [updateProfile] the context hands out, the edit handler
    runs it first and only when the call resolved with a falsy [error]
    does it set state: the loaded profile then has [newName] as its
    name, its other fields as before, and edit mode is left; when the call
    resolved with an error or threw, the handler sets no state and only
    logs.  The context's own [updateProfile] sets no state either, so
    in those cases the state is the one before the submission. *)
Theorem handleUpdateProfile_sets_name_on_success_only :
  forall (W : Type) (env : Env W) (s : App) (w : W)
         (updateProfile : string -> option string -> Prog ErrorResult.t)
         (newName : string),
    let call := run env (updateProfile newName None) s w in
    let r := run env (Dashboard.handleUpdateProfile updateProfile newName) s w in
    result r = Resolved tt
    /\ match result call with
       | Resolved res =>
           if truthy (ErrorResult.error res)
           then ui r = ui call
                /\ trace r = (trace call ++ [EvConsole level_error "Error updating profile:"])%list
           else DashState.profile (dash (ui r))
                = match DashState.profile (dash (ui call)) with
                  | Some p =>
                      Some (Profile.mk (Profile.id p) newName (Profile.avatar_url p)
                              (Profile.created_at p) (Profile.updated_at p))
                  | None => None
                  end
                /\ DashState.editingProfile (dash (ui r)) = false
                /\ ui r = name_applied newName (ui call)
                /\ trace r = (trace call ++ [EvSetState; EvSetState])%list
       | Rejected _ =>
           ui r = ui call
           /\ trace r = (trace call ++ [EvConsole level_error "Error updating profile:"])%list
       end
    /\ forall user : option User.t,
         ui (run env (AuthContext.updateProfile user newName None) s w) = s.
Proof.
  intros W env s w updateProfile newName call r. subst r.
  unfold Dashboard.handleUpdateProfile.
  change (updateProfile newName None ≫= ?f) with (bind (updateProfile newName None) f).
  rewrite run_try_catch_bind. fold call.
  split; [|split].
  - destruct (result call) as [res|v]; simpl; [|reflexivity].
    destruct (truthy (ErrorResult.error res)); reflexivity.
  - destruct (result call) as [res|v]; simpl; [|split; reflexivity].
    destruct (truthy (ErrorResult.error res)); simpl; [split; reflexivity|].
    unfold name_applied. destruct (DashState.profile (dash (ui call)));
      repeat split; reflexivity.
  - intros user. apply updateProfile_sets_no_state.
Qed.

(** ** Exceptions at the call sites *)

(** C8 (as the code has it). None of [signUp], [signIn],
    [signInWithMagicLink] and [updateProfile] ever throws: what is
    thrown inside them is caught and returned to the caller in the
    [error] field.  [signUp] and [signIn] return it as an [Error]: the
    thrown value itself when it is an [Error], a fresh
    [Error('Unknown error')] otherwise.  [signInWithMagicLink] and
    [updateProfile] return the thrown value as it is.  [signOut] has no
    handler: it rejects with what the provider threw. *)
Theorem exceptions_at_call_sites :
  forall (W : Type) (env : Env W) (s : App) (w : W)
         (email password : string) (name : option string)
         (user : User.t) (profileName : string) (avatarUrl : option string),
    let as_Error := fun v : JsValue =>
      if instanceof_Error v then v else VError "Unknown error" in
    let name_or_empty :=
      match name with
      | Some n => if String.eqb n "" then "" else n
      | None => ""
      end in
    let avatar_or_empty :=
      match avatarUrl with
      | Some a => if String.eqb a "" then "" else a
      | None => ""
      end in
    (forall v, instanceof_Error (as_Error v) = true)
    /\ (let r := run env (AuthContext.signUp email password name) s w in
        (exists res, result r = Resolved res)
        /\ match answer env window_location_origin w with
           | Rejected v => result r = Resolved (SignUpResult.mk (as_Error v) None)
           | Resolved origin =>
               match answer env
                       (auth_signUp email password (origin ++ "/auth/callback")
                          name_or_empty)
                       (after env window_location_origin w) with
               | Rejected v => result r = Resolved (SignUpResult.mk (as_Error v) None)
               | Resolved _ => True
               end
           end)
    /\ (let r := run env (AuthContext.signIn email password) s w in
        (exists res, result r = Resolved res)
        /\ match answer env (auth_signInWithPassword email password) w with
           | Rejected v => result r = Resolved (ErrorResult.mk (as_Error v))
           | Resolved _ => True
           end)
    /\ (let r := run env (AuthContext.signInWithMagicLink email) s w in
        (exists res, result r = Resolved res)
        /\ match answer env window_location_origin w with
           | Rejected v => result r = Resolved (ErrorResult.mk v)
           | Resolved origin =>
               match answer env (auth_signInWithOtp email (origin ++ "/auth/callback"))
                       (after env window_location_origin w) with
               | Rejected v => result r = Resolved (ErrorResult.mk v)
               | Resolved _ => True
               end
           end)
    /\ (let r := run env (AuthContext.updateProfile (Some user) profileName avatarUrl)
                   s w in
        let update :=
          profiles_update
            (ProfileUpdate.mk profileName avatar_or_empty (read_clock env w))
            (User.id user) in
        let w1 := after env update (after_clock env w) in
        let insert :=
          profiles_insert
            (Profile.mk (User.id user) profileName avatar_or_empty
               (read_clock env w1) (read_clock env (after_clock env w1))) in
        (exists res, result r = Resolved res)
        /\ match answer env update (after_clock env w) with
           | Rejected v => result r = Resolved (ErrorResult.mk v)
           | Resolved updateError =>
               if AuthContext.no_rows updateError then
                 match answer env insert (after_clock env (after_clock env w1)) with
                 | Rejected v => result r = Resolved (ErrorResult.mk v)
                 | Resolved _ => True
                 end
               else True
           end)
    /\ (exists res,
          result (run env (AuthContext.updateProfile None profileName avatarUrl) s w)
          = Resolved res)
    /\ (let r := run env AuthContext.signOut s w in
        match answer env auth_signOut w with
        | Rejected v => result r = Rejected v
        | Resolved _ => result r = Resolved tt
        end).
Proof.
  intros W env s w email password name user profileName avatarUrl
    as_Error name_or_empty avatar_or_empty.
  subst as_Error name_or_empty avatar_or_empty.
  split; [intros v; by destruct v|].
  unfold answer, after, read_clock, after_clock.
  split; [|split; [|split; [|split; [|split]]]].
  - unfold AuthContext.signUp, AuthContext.normalize, or_else. simpl.
    all_cases; split; eauto.
  - unfold AuthContext.signIn, AuthContext.normalize. simpl.
    all_cases; split; eauto.
  - unfold AuthContext.signInWithMagicLink. simpl.
    all_cases; split; eauto.
  - unfold AuthContext.updateProfile, or_else. simpl.
    all_cases; split; eauto.
  - simpl. eauto.
  - unfold AuthContext.signOut. simpl. all_cases; reflexivity.
Qed.

(** C8 as stated fails: when the provider throws, [signOut] throws too
    instead of returning an error object, and what
    [signInWithMagicLink] and [updateProfile] return for a thrown
    string is that string, which is not an [Error]. *)
Lemma thrown_values_not_normalized_everywhere :
  result (run (all_rejected (VString "offline")) AuthContext.signOut fresh_app tt)
  = Rejected (VString "offline")
  /\ result (run (all_rejected (VString "offline"))
               (AuthContext.signInWithMagicLink "a@b.com") fresh_app tt)
     = Resolved (ErrorResult.mk (VString "offline"))
  /\ result (run (all_rejected (VString "offline"))
               (AuthContext.updateProfile (Some alice) "Al" None) fresh_app tt)
     = Resolved (ErrorResult.mk (VString "offline"))
  /\ instanceof_Error (VString "offline") = false.
Proof. repeat split; reflexivity. Qed.

(** ** The default profile *)

Lemma split_nonempty (sep : ascii) (s : string) : Dashboard.split sep s <> [].
Proof.
  destruct s as [|c s]; simpl; [discriminate|].
  destruct (Ascii.eqb c sep); [discriminate|].
  destruct (Dashboard.split sep s); discriminate.
Qed.

(** The local part is the prefix of the address up to its first ['@']
    (the whole address when there is none). *)
Lemma local_part_spec (email : string) :
  exists rest : string,
    email = (Dashboard.local_part email ++ rest)%string
    /\ contains "@" (Dashboard.local_part email) = false
    /\ (rest = "" \/ exists post, rest = String "@" post).
Proof.
  unfold Dashboard.local_part.
  induction email as [|c email (rest & Heq & Hno & Hrest)]; simpl.
  - exists "". auto.
  - destruct (Ascii.eqb c "@") eqn:Hc; simpl.
    + apply Ascii.eqb_eq in Hc as ->. exists (String "@" email). eauto.
    + pose proof (split_nonempty "@" email) as Hne.
      destruct (Dashboard.split "@" email) as [|h t]; [done|]. simpl in *.
      exists rest. rewrite Hc, Hno. split; [rewrite Heq at 1; reflexivity|]. auto.
Qed.

Lemma default_name_by_rule (user : User.t) :
  named_by_rule user (Dashboard.default_name user).
Proof.
  unfold named_by_rule, Dashboard.default_name, or_else.
  destruct (UserMetadata.name (User.user_metadata user)) as [n|];
    [destruct (String.eqb n "")|]; try reflexivity;
    (destruct (User.email user) as [email|]; simpl; [|reflexivity];
     exists (Dashboard.local_part email);
     split; [apply local_part_spec|reflexivity]).
Qed.

(** C2. [fetchUserData] starts by fetching the user's profile row.  When
    that fetch settles with the "not found" condition it inserts exactly
    one row, otherwise none.  The inserted row has the user's id; its
    name is the metadata name when that is a non-empty string, else the
    local part of the email (the text before the first ['@']) when that
    is non-empty, else ["User"]; its avatar is the metadata avatar or
    the empty string.  For a user a@b.com without metadata name and
    without a row in the store, the dashboard then shows the name "a"
    and the email "a@b.com". *)
Theorem fetchUserData_default_profile :
  forall (W : Type) (env : Env W) (s : App) (w : W) (user : User.t),
    (let r := run env (Dashboard.fetchUserData (Some user)) s w in
     exists o rest,
       awaited (trace r) = EvAwait (profiles_select_single (User.id user)) o :: rest
       /\ if fetch_missed o
          then exists name avatar t1 t2,
                 profile_inserts (trace r)
                 = [Profile.mk (User.id user) name avatar t1 t2]
                 /\ named_by_rule user name
                 /\ avatar
                    = match UserMetadata.avatar_url (User.user_metadata user) with
                      | Some a => if String.eqb a "" then "" else a
                      | None => ""
                      end
          else profile_inserts (trace r) = [])
    /\ Dashboard.default_name user
       = (let fallback :=
            match User.email user with
            | Some email =>
                if String.eqb (Dashboard.local_part email) "" then "User"
                else Dashboard.local_part email
            | None => "User"
            end in
          match UserMetadata.name (User.user_metadata user) with
          | Some name => if String.eqb name "" then fallback else name
          | None => fallback
          end)
    /\ (forall email : string, exists rest : string,
          email = (Dashboard.local_part email ++ rest)%string
          /\ contains "@" (Dashboard.local_part email) = false
          /\ (rest = "" \/ exists post, rest = String "@" post))
    /\ (forall (id : string) (avatar : option string)
               (rows : gmap string Profile.t) (resumes : list Resume.t)
               (ticks : list string),
          let a := User.mk id (Some "a@b.com") (UserMetadata.mk None avatar) in
          let r := run Store.env (Dashboard.fetchUserData (Some a)) s
                     (Store.mk (delete id rows) resumes ticks) in
          Dashboard.displayed_name (dash (ui r)) = "a"
          /\ Dashboard.displayed_email (Some a) = Some "a@b.com"
          /\ Profile.name <$> (Store.profiles (world r) !! id) = Some "a"
          /\ Profile.name <$> head (profile_inserts (trace r)) = Some "a").
Proof.
  intros W env s w user. split; [|split; [|split]].
  - pose proof (default_name_by_rule user) as Hrule.
    assert (Hinserted : forall t1 t2,
               exists name avatar t1' t2',
                 [Dashboard.default_profile user t1 t2]
                 = [Profile.mk (User.id user) name avatar t1' t2']
                 /\ named_by_rule user name
                 /\ avatar
                    = match UserMetadata.avatar_url (User.user_metadata user) with
                      | Some a => if String.eqb a "" then "" else a
                      | None => ""
                      end).
    { intros t1 t2. eexists _, _, t1, t2. split; [reflexivity|]. split; [exact Hrule|].
      unfold or_else. reflexivity. }
    unfold Dashboard.fetchUserData. simpl. next_answer.
    destruct o as [[profileData [e|]]|v]; simpl.
    + destruct (Dashboard.not_found e) eqn:Hnf; simpl.
      * repeat next_answer.
        destruct o as [[[p|] [createError|]]|v]; simpl;
          try (next_answer; destruct o as [[resumeData [resumeError|]]|v]; simpl);
          (eexists; eexists; split; [reflexivity|]; simpl; rewrite Hnf;
           apply Hinserted).
      * next_answer. destruct o as [[resumeData [resumeError|]]|v]; simpl;
          (eexists; eexists; split; [reflexivity|]; simpl; rewrite Hnf; eauto).
    + destruct profileData as [p|]; simpl.
      * next_answer. destruct o as [[resumeData [resumeError|]]|v]; simpl;
          (eexists; eexists; split; [reflexivity|]; simpl; eauto).
      * eexists; eexists; split; [reflexivity|]; simpl; eauto.
    + eexists; eexists; split; [reflexivity|]; simpl; eauto.
  - unfold Dashboard.default_name, or_else.
    destruct (User.email user); reflexivity.
  - apply local_part_spec.
  - intros id avatar rows resumes ticks a r. subst r a.
    unfold Dashboard.fetchUserData. simpl.
    unfold Store.select_single. simpl. rewrite lookup_delete_eq. simpl.
    unfold Store.clock, Store.insert_select_single, Store.insert. simpl.
    destruct ticks as [|t1 [|t2 ticks]]; simpl;
      rewrite lookup_delete_eq; simpl; rewrite ?lookup_insert_eq; simpl;
      repeat split; simpl; rewrite ?lookup_insert_eq; reflexivity.
Qed.

(** ** The resume list *)

Lemma ltb_leb (a b : string) : String.ltb a b = true -> String.leb a b = true.
Proof. unfold String.ltb, String.leb. by destruct (String.compare a b). Qed.

Lemma sorted_desc_cons (r : Resume.t) (l : list Resume.t) :
  sorted_desc l = true -> later_than_all r l = true -> sorted_desc (r :: l) = true.
Proof.
  intros Hsorted Hlater. destruct l as [|b l]; [reflexivity|].
  change (String.leb (Resume.created_at b) (Resume.created_at r) && sorted_desc (b :: l) = true).
  rewrite Hsorted, andb_true_r.
  apply ltb_leb. simpl in Hlater. by apply andb_true_iff in Hlater as [Hb _].
Qed.

#[global] Instance newer_first_total : Total Store.newer_first.
Proof. intros a b. unfold Store.newer_first. apply String.leb_total. Qed.

Lemma Sorted_sorted_desc (l : list Resume.t) :
  Sorted Store.newer_first l -> sorted_desc l = true.
Proof.
  induction 1 as [|a l Hl IH Hhd]; [reflexivity|].
  destruct l as [|b l]; [reflexivity|].
  change (String.leb (Resume.created_at b) (Resume.created_at a) && sorted_desc (b :: l) = true).
  rewrite IH, andb_true_r. by inversion Hhd.
Qed.

Lemma merge_sort_sorted_desc (l : list Resume.t) :
  sorted_desc (merge_sort Store.newer_first l) = true.
Proof. apply Sorted_sorted_desc, Sorted_merge_sort. apply _. Qed.

(** C3. The list is kept sorted by [created_at], most recent first.
    [fetchUserData] asks for the user's resumes in descending order of
    [created_at] and in no other order: whenever the profile fetch
    returns a row or an error other than "not found", that query is
    made, and against the reference store, which honours the order, it
    is always made and the list left in the state is the store's
    answer, sorted.  For every sorted list in the state and every new
    resume strictly later than all its elements, [handleUploadSuccess]
    puts the new resume at position 0 without any call, and the list is
    still sorted. *)
Theorem resume_list_stays_sorted_desc :
  (forall (W : Type) (env : Env W) (s : App) (w : W) (user : User.t),
     let r := run env (Dashboard.fetchUserData (Some user)) s w in
     let query := resumes_select_order (User.id user) "created_at" false in
     forallb (requests_desc (User.id user)) (calls (trace r)) = true
     /\ match answer env (profiles_select_single (User.id user)) w with
        | Resolved (Some _, None) =>
            calls (trace r) = [profiles_select_single (User.id user); query]
        | Resolved (_, Some e) =>
            if Dashboard.not_found e then True
            else calls (trace r) = [profiles_select_single (User.id user); query]
        | _ => True
        end)
  /\ (forall (s : App) (ws : Store.t) (user : User.t),
        let r := run Store.env (Dashboard.fetchUserData (Some user)) s ws in
        last (calls (trace r))
        = Some (resumes_select_order (User.id user) "created_at" false)
        /\ List.filter is_resume_query (calls (trace r))
           = [resumes_select_order (User.id user) "created_at" false]
        /\ DashState.resumes (dash (ui r))
           = merge_sort Store.newer_first
               (List.filter (Store.owned_by (User.id user)) (Store.resumes ws))
        /\ sorted_desc (DashState.resumes (dash (ui r))) = true)
  /\ (forall (W : Type) (env : Env W) (s : App) (w : W) (newResume : Resume.t),
        sorted_desc (DashState.resumes (dash s)) = true ->
        later_than_all newResume (DashState.resumes (dash s)) = true ->
        let r := run env (Dashboard.handleUploadSuccess newResume) s w in
        DashState.resumes (dash (ui r)) = newResume :: DashState.resumes (dash s)
        /\ sorted_desc (DashState.resumes (dash (ui r))) = true
        /\ calls (trace r) = []
        /\ result r = Resolved tt).
Proof.
  split; [|split].
  - intros W env s w user r query. subst r query.
    unfold Dashboard.fetchUserData, answer. simpl.
    assert (Hq : String.eqb (User.id user) (User.id user) = true)
      by apply String.eqb_refl.
    all_cases; rewrite ?Hq; split; reflexivity.
  - intros s ws user r. subst r.
    destruct ws as [rows resumes ticks].
    unfold Dashboard.fetchUserData. simpl.
    unfold Store.select_single. simpl.
    destruct (rows !! User.id user) as [row|] eqn:Hrow; simpl.
    + repeat split; try reflexivity. apply merge_sort_sorted_desc.
    + unfold Store.clock, Store.insert_select_single, Store.insert. simpl.
      destruct ticks as [|t1 [|t2 ticks]]; simpl;
        rewrite Hrow; simpl; rewrite ?lookup_insert_eq; simpl;
        (repeat split; try reflexivity; apply merge_sort_sorted_desc).
  - intros W env s w newResume Hsorted Hlater. simpl.
    repeat split; try reflexivity.
    by apply sorted_desc_cons.
Qed.

(** The theorem at a dashboard that lists two resumes, for an upload
    of the following day. *)
Lemma resume_list_stays_sorted_desc_witness :
  sorted_desc (DashState.resumes (dash listing)) = true
  /\ later_than_all (resume_at 3 "2025-07-03T11:15:00.000Z")
       (DashState.resumes (dash listing)) = true
  /\ sorted_desc
       (DashState.resumes
          (dash (ui (run (all_rejected (VString "offline"))
                       (Dashboard.handleUploadSuccess
                          (resume_at 3 "2025-07-03T11:15:00.000Z"))
                       listing tt))))
     = true.
Proof.
  split; [reflexivity|]. split; [reflexivity|].
  pose proof (proj2 (proj2 resume_list_stays_sorted_desc)
                unit (all_rejected (VString "offline"))
                listing tt (resume_at 3 "2025-07-03T11:15:00.000Z")
                eq_refl eq_refl) as (_ & H & _).
  exact H.
Defined.

(** Without the premise the order can break: an upload stamped earlier
    than the newest listed resume still goes to position 0. *)
Example handleUploadSuccess_earlier_upload :
  sorted_desc
    (DashState.resumes
       (dash (ui (run (all_rejected (VString "offline"))
                    (Dashboard.handleUploadSuccess
                       (resume_at 3 "2025-07-01T23:00:00.000Z"))
                    listing tt))))
  = false.
Proof. reflexivity. Qed.

(** ** [updateProfile] against the reference store *)

Lemma awaited_app (t1 t2 : list Event) :
  awaited (t1 ++ t2)%list = (awaited t1 ++ awaited t2)%list.
Proof. unfold awaited. apply List.filter_app. Qed.

Lemma reading_next (k : nat) (w : Store.t) :
  reading k (snd (Store.clock w)) = reading (S k) w.
Proof.
  unfold reading, Store.clock. destruct w as [p r [|t ts]]; simpl; [|reflexivity].
  by destruct k.
Qed.

Lemma reading_first (w : Store.t) : fst (Store.clock w) = reading 0 w.
Proof. unfold reading, Store.clock. by destruct w as [p r [|t ts]]. Qed.

Lemma clock_profiles (w : Store.t) :
  Store.profiles (snd (Store.clock w)) = Store.profiles w.
Proof. unfold Store.clock. by destruct w as [p r [|t ts]]. Qed.

(** One call on a store that has the row: a single update, which succeeds. *)
Lemma updateProfile_on_existing_row (s : App) (w : Store.t) (user : User.t)
    (name : string) (avatarUrl : option string) (row : Profile.t) :
  Store.profiles w !! User.id user = Some row ->
  let v := ProfileUpdate.mk name (or_else avatarUrl "") (reading 0 w) in
  let w' := snd (Store.clock w) in
  run Store.env (AuthContext.updateProfile (Some user) name avatarUrl) s w
  = mkRun (Resolved (ErrorResult.mk VNull)) s
      (Store.with_profiles (<[User.id user := Store.apply_update v row]> (Store.profiles w')) w')
      [EvNewDate (reading 0 w);
       EvAwait (profiles_update v (User.id user)) (Resolved None)].
Proof.
  intros Hrow v w'. subst v w'.
  unfold AuthContext.updateProfile. simpl.
  rewrite <- reading_first.
  pose proof (clock_profiles w) as Hp.
  destruct (Store.clock w) as [t w1]. simpl in *.
  unfold Store.update. rewrite Hp, Hrow. reflexivity.
Qed.

(** One call on a store that lacks the row: the update misses and the
    insert creates the row. *)
Lemma updateProfile_on_missing_row (s : App) (w : Store.t) (user : User.t)
    (name : string) (avatarUrl : option string) :
  Store.profiles w !! User.id user = None ->
  exists created_at updated_at,
    Store.profiles
      (world (run Store.env (AuthContext.updateProfile (Some user) name avatarUrl) s w))
    !! User.id user
    = Some (Profile.mk (User.id user) name (or_else avatarUrl "") created_at updated_at).
Proof.
  intros Hrow.
  unfold AuthContext.updateProfile. simpl.
  pose proof (clock_profiles w) as Hp1.
  destruct (Store.clock w) as [t0 w1]. simpl in *.
  unfold Store.update. rewrite Hp1, Hrow. simpl.
  pose proof (clock_profiles w1) as Hp2.
  destruct (Store.clock w1) as [t1 w2]. simpl in *.
  pose proof (clock_profiles w2) as Hp3.
  destruct (Store.clock w2) as [t2 w3]. simpl in *.
  unfold Store.insert. simpl. rewrite Hp3, Hp2, Hp1, Hrow. simpl.
  exists t1, t2. apply lookup_insert_eq.
Qed.

Lemma reading_after_update (k : nat) (w : Store.t) (p : gmap string Profile.t) :
  reading k (Store.with_profiles p (snd (Store.clock w))) = reading (S k) w.
Proof. rewrite <- reading_next. reflexivity. Qed.

(** Calls that find the row: each is one successful update, and the row
    they leave is the first one with [updated_at] moved to the last
    reading of the clock. *)
Lemma times_on_existing_row (user : User.t) (name : string) (avatarUrl : option string)
    (n : nat) :
  forall (s : App) (w : Store.t) (row : Profile.t),
    Store.profiles w !! User.id user = Some row ->
    let later := run Store.env
                   (times n (AuthContext.updateProfile (Some user) name avatarUrl)) s w in
    result later = Resolved tt
    /\ awaited (trace later)
       = map (fun k => EvAwait
                         (profiles_update
                            (ProfileUpdate.mk name (or_else avatarUrl "") (reading k w))
                            (User.id user))
                         (Resolved None))
           (seq 0 n)
    /\ Store.profiles (world later) !! User.id user
       = Some (match n with
               | O => row
               | S k => rewritten name (or_else avatarUrl "") row (reading k w)
               end).
Proof.
  induction n as [|n IH]; intros s w row Hrow later; subst later.
  - simpl. auto.
  - change (times (S n) ?p) with (bind p (fun _ => times n p)).
    rewrite run_bind, (updateProfile_on_existing_row s w user name avatarUrl row Hrow).
    cbn [result ui world trace and_then].
    set (v := ProfileUpdate.mk name (or_else avatarUrl "") (reading 0 w)).
    set (p' := <[User.id user := Store.apply_update v row]>
                 (Store.profiles (snd (Store.clock w)))).
    set (w' := Store.with_profiles p' (snd (Store.clock w))).
    assert (Hrow' : Store.profiles w' !! User.id user = Some (Store.apply_update v row)).
    { subst w' p'. simpl. apply lookup_insert_eq. }
    destruct (IH s w' _ Hrow') as (Hres & Htr & Hfin).
    assert (Hread : forall k, reading k w' = reading (S k) w).
    { intros k. subst w'. apply reading_after_update. }
    split; [exact Hres|]. split.
    + rewrite awaited_app, Htr. simpl. f_equal.
      rewrite <- seq_shift, map_map. apply map_ext. intros k. by rewrite Hread.
    + rewrite Hfin. f_equal. destruct n as [|k]; [reflexivity|].
      unfold rewritten. rewrite Hread. reflexivity.
Qed.

Lemma profile_inserts_awaited (tr : list Event) :
  profile_inserts tr = profile_inserts (awaited tr).
Proof.
  induction tr as [|e tr IH]; [reflexivity|].
  destruct e as [c o|t|l m|]; simpl; try exact IH.
  destruct c; simpl; congruence.
Qed.

(** C5. On the reference store, a first call of [updateProfile] leaves
    the user's row in place (inserting it if it was missing) with the
    given name and avatar.  Each of [n] further identical calls then
    issues one update, which succeeds, and no insert; the row they
    leave has the same id, name, avatar and [created_at] as after the
    first call and the [updated_at] of the last update. *)
Theorem updateProfile_repeated_calls :
  forall (s : App) (w : Store.t) (user : User.t)
         (name : string) (avatarUrl : option string) (n : nat),
    let call := AuthContext.updateProfile (Some user) name avatarUrl in
    let first := run Store.env call s w in
    let later := run Store.env (times n call) (ui first) (world first) in
    exists row1 : Profile.t,
      Store.profiles (world first) !! User.id user = Some row1
      /\ Profile.name row1 = name
      /\ Profile.avatar_url row1 = or_else avatarUrl ""
      /\ result later = Resolved tt
      /\ awaited (trace later)
         = map (fun k => EvAwait
                           (profiles_update
                              (ProfileUpdate.mk name (or_else avatarUrl "")
                                 (reading k (world first)))
                              (User.id user))
                           (Resolved None))
             (seq 0 n)
      /\ profile_inserts (trace later) = []
      /\ Store.profiles (world later) !! User.id user
         = Some (match n with
                 | O => row1
                 | S k => rewritten name (or_else avatarUrl "") row1
                            (reading k (world first))
                 end).
Proof.
  intros s w user name avatarUrl n call first later.
  assert (Hfirst : exists row1,
             Store.profiles (world first) !! User.id user = Some row1
             /\ Profile.name row1 = name
             /\ Profile.avatar_url row1 = or_else avatarUrl "").
  { subst first call.
    destruct (Store.profiles w !! User.id user) as [row|] eqn:Hrow.
    - rewrite (updateProfile_on_existing_row s w user name avatarUrl row Hrow).
      simpl. rewrite lookup_insert_eq. eauto.
    - destruct (updateProfile_on_missing_row s w user name avatarUrl Hrow)
        as (c & u & ->). eauto. }
  destruct Hfirst as (row1 & Hrow1 & Hname & Havatar).
  destruct (times_on_existing_row user name avatarUrl n (ui first) (world first) row1 Hrow1)
    as (Hres & Htr & Hfin).
  exists row1. repeat split; try assumption.
  subst later call. rewrite profile_inserts_awaited, Htr.
  generalize (seq 0 n). induction l as [|k l IHl]; [reflexivity|exact IHl].
Qed.

(** C10. Every write [updateProfile] sends to [profiles], update or
    insert, carries as [avatar_url] the given [avatarUrl] when that is
    a non-empty string and the empty string otherwise.  So a call that
    gives only a name leaves the user's row in the reference store with
    an empty [avatar_url], whatever the row held before. *)
Theorem updateProfile_avatar_url_or_empty :
  forall (W : Type) (env : Env W) (s : App) (w : W)
         (user : User.t) (name : string) (avatarUrl : option string),
    (let r := run env (AuthContext.updateProfile (Some user) name avatarUrl) s w in
     calls (trace r) <> []
     /\ Forall (fun c => avatar_written c = Some (or_else avatarUrl "")) (calls (trace r)))
    /\ or_else avatarUrl ""
       = match avatarUrl with
         | Some a => if String.eqb a "" then "" else a
         | None => ""
         end
    /\ (forall ws : Store.t,
          let r := run Store.env (AuthContext.updateProfile (Some user) name None) s ws in
          Profile.avatar_url <$> (Store.profiles (world r) !! User.id user) = Some "").
Proof.
  intros W env s w user name avatarUrl. split; [|split].
  - unfold AuthContext.updateProfile. simpl. repeat next_answer.
    destruct o as [updateError|v]; simpl.
    + destruct (AuthContext.no_rows updateError); simpl.
      * repeat next_answer.
        destruct o as [insertError|v]; simpl; (split; [discriminate|]);
          repeat constructor.
      * split; [discriminate|]. repeat constructor.
    + split; [discriminate|]. repeat constructor.
  - unfold or_else. by destruct avatarUrl.
  - intros ws r. subst r.
    destruct (Store.profiles ws !! User.id user) as [row|] eqn:Hrow.
    + rewrite (updateProfile_on_existing_row s ws user name None row Hrow).
      simpl. by rewrite lookup_insert_eq.
    + by destruct (updateProfile_on_missing_row s ws user name None Hrow)
        as (c & u & ->).
Qed.

(** ** Runs on the reference store *)

Example updateProfile_alice_name_only :
  let r := run Store.env (AuthContext.updateProfile (Some alice) "Al" None)
             fresh_app store_with_alice in
  result r = Resolved (ErrorResult.mk VNull)
  /\ calls (trace r)
     = [profiles_update (ProfileUpdate.mk "Al" "" "2025-07-01T00:00:00.000Z") "6f1c"]
  /\ Store.profiles (world r) !! "6f1c"
     = Some (Profile.mk "6f1c" "Al" "" "2025-06-01T08:00:00.000Z"
               "2025-07-01T00:00:00.000Z").
Proof. vm_compute. auto. Qed.

Example updateProfile_first_call_inserts :
  let r := run Store.env
             (AuthContext.updateProfile (Some alice) "Al" (Some "https://img.example/b.png"))
             fresh_app (Store.mk ∅ [] ["t0"; "t1"; "t2"]) in
  calls (trace r)
  = [profiles_update (ProfileUpdate.mk "Al" "https://img.example/b.png" "t0") "6f1c";
     profiles_insert (Profile.mk "6f1c" "Al" "https://img.example/b.png" "t1" "t2")]
  /\ Store.profiles (world r) !! "6f1c"
     = Some (Profile.mk "6f1c" "Al" "https://img.example/b.png" "t1" "t2").
Proof. vm_compute. auto. Qed.

Example default_name_examples :
  Dashboard.default_name alice = "a"
  /\ Dashboard.default_name
       (User.mk "1" (Some "a@b.com") (UserMetadata.mk (Some "Ann") None)) = "Ann"
  /\ Dashboard.default_name
       (User.mk "1" (Some "a@b.com") (UserMetadata.mk (Some "") None)) = "a"
  /\ Dashboard.default_name (User.mk "1" (Some "@b.com") (UserMetadata.mk None None))
     = "User"
  /\ Dashboard.default_name (User.mk "1" None (UserMetadata.mk None None)) = "User".
Proof. repeat split; reflexivity. Qed.

(** ** Runs on scripted environments *)

(** An update error other than PGRST116 is returned as it is, and no
    insert follows. *)
Example updateProfile_update_denied :
  let r := run update_denied (AuthContext.updateProfile (Some alice) "Al" None)
             fresh_app tt in
  result r
  = Resolved (ErrorResult.mk
                (VPostgrestError (PostgrestError.mk "42501" "permission denied")))
  /\ calls (trace r) = [profiles_update (ProfileUpdate.mk "Al" "" Store.epoch) "6f1c"].
Proof. split; reflexivity. Qed.

(** The edit handler judges the outcome by the truthiness of [error]:
    a denied update leaves the listed state as it is. *)
Example handleUpdateProfile_update_denied :
  ui (run update_denied
        (Dashboard.handleUpdateProfile (AuthContext.updateProfile (Some alice)) "Al")
        listing tt)
  = listing.
Proof. reflexivity. Qed.

(** A falsy value thrown inside [updateProfile] comes back as
    [{ error: undefined }], which the edit handler takes for a success. *)
Example handleUpdateProfile_falsy_thrown_value :
  result (run (all_rejected VUndefined)
            (AuthContext.updateProfile (Some alice) "Al" None) listing tt)
  = Resolved (ErrorResult.mk VUndefined)
  /\ ui (run (all_rejected VUndefined)
           (Dashboard.handleUpdateProfile (AuthContext.updateProfile (Some alice)) "Al")
           listing tt)
     = name_applied "Al" listing.
Proof. split; reflexivity. Qed.

(** * Further properties of the code *)

Lemma or_empty_self (n : string) : (if String.eqb n "" then "" else n) = n.
Proof.
  destruct (String.eqb n "") eqn:E; [|reflexivity].
  by apply String.eqb_eq in E.
Qed.

Lemma or_else_self (n : string) : or_else (Some n) "" = n.
Proof. apply or_empty_self. Qed.

(** ** [fetchUserData] *)

(** X1. For a signed-in user [fetchUserData] always resolves and ends
    with the loading flag cleared, however its calls settle; it never
    touches the auth state, the edit flag or the upload dialog.  With no
    user it returns before the [try]: no call is made and the loading
    flag is left as it was. *)
Theorem fetchUserData_clears_loading :
  forall (W : Type) (env : Env W) (s : App) (w : W) (user : User.t),
    (let r := run env (Dashboard.fetchUserData (Some user)) s w in
     result r = Resolved tt
     /\ DashState.loading (dash (ui r)) = false
     /\ auth (ui r) = auth s
     /\ DashState.editingProfile (dash (ui r)) = DashState.editingProfile (dash s)
     /\ DashState.showUploadModal (dash (ui r)) = DashState.showUploadModal (dash s))
    /\ run env (Dashboard.fetchUserData None) s w = mkRun (Resolved tt) s w [].
Proof.
  intros W env s w user. split; [|reflexivity].
  unfold Dashboard.fetchUserData. simpl.
  all_cases; repeat split; reflexivity.
Qed.

(** X2. What [fetchUserData] does with the profile, by the way the
    profile fetch settled.  A row without error is adopted (and its
    name becomes the edit field) with no insert.  An error other than
    "not found" leaves the profile and the edit field alone, with no
    insert.  A rejected fetch leaves profile, edit field and resume
    list alone and is the only call made.  A reply with neither row nor
    error sets the profile to null and then fails on reading its name,
    so the resumes are not fetched either. *)
Theorem fetchUserData_profile_outcome :
  forall (W : Type) (env : Env W) (s : App) (w : W) (user : User.t),
    let r := run env (Dashboard.fetchUserData (Some user)) s w in
    match fetch_reply (trace r) with
    | Some (Resolved (Some p, None)) =>
        DashState.profile (dash (ui r)) = Some p
        /\ DashState.newName (dash (ui r)) = Profile.name p
        /\ profile_inserts (trace r) = []
    | Some (Resolved (None, None)) =>
        DashState.profile (dash (ui r)) = None
        /\ DashState.newName (dash (ui r)) = DashState.newName (dash s)
        /\ DashState.resumes (dash (ui r)) = DashState.resumes (dash s)
        /\ calls (trace r) = [profiles_select_single (User.id user)]
    | Some (Resolved (_, Some e)) =>
        if Dashboard.not_found e then True
        else DashState.profile (dash (ui r)) = DashState.profile (dash s)
             /\ DashState.newName (dash (ui r)) = DashState.newName (dash s)
             /\ profile_inserts (trace r) = []
    | Some (Rejected _) =>
        DashState.profile (dash (ui r)) = DashState.profile (dash s)
        /\ DashState.newName (dash (ui r)) = DashState.newName (dash s)
        /\ DashState.resumes (dash (ui r)) = DashState.resumes (dash s)
        /\ calls (trace r) = [profiles_select_single (User.id user)]
    | None => False
    end.
Proof.
  intros W env s w user r. subst r.
  unfold Dashboard.fetchUserData. simpl.
  all_cases; rewrite ?Hnf; rewrite ?or_empty_self; repeat split; reflexivity.
Qed.

(** X3. In the fallback for a missing profile, the inserted row is
    adopted only when the insert returns a row and no error.  When the
    insert reports an error, or returns no row, the profile and the
    edit field stay as they were and the resumes are still fetched;
    when the insert is rejected the resumes are not fetched. *)
Theorem fetchUserData_insert_outcome :
  forall (W : Type) (env : Env W) (s : App) (w : W) (user : User.t),
    let r := run env (Dashboard.fetchUserData (Some user)) s w in
    match insert_select_reply (trace r) with
    | Some (Resolved (Some p, None)) =>
        DashState.profile (dash (ui r)) = Some p
        /\ DashState.newName (dash (ui r)) = Profile.name p
        /\ resumes_reply (trace r) <> None
    | Some (Resolved _) =>
        DashState.profile (dash (ui r)) = DashState.profile (dash s)
        /\ DashState.newName (dash (ui r)) = DashState.newName (dash s)
        /\ resumes_reply (trace r) <> None
    | Some (Rejected _) =>
        DashState.profile (dash (ui r)) = DashState.profile (dash s)
        /\ DashState.newName (dash (ui r)) = DashState.newName (dash s)
        /\ DashState.resumes (dash (ui r)) = DashState.resumes (dash s)
        /\ resumes_reply (trace r) = None
    | None => profile_inserts (trace r) = []
    end.
Proof.
  intros W env s w user r. subst r.
  unfold Dashboard.fetchUserData. simpl.
  all_cases; rewrite ?or_empty_self; repeat split; try reflexivity; discriminate.
Qed.

(** X4. The resume list is replaced only by a resume query that
    resolves without error: by the rows returned, or by the empty list
    when the data is null.  When the query reports an error, is
    rejected or is never reached, the list stays as it was. *)
Theorem fetchUserData_resumes_outcome :
  forall (W : Type) (env : Env W) (s : App) (w : W) (user : User.t),
    let r := run env (Dashboard.fetchUserData (Some user)) s w in
    match resumes_reply (trace r) with
    | Some (Resolved (Some rows, None)) => DashState.resumes (dash (ui r)) = rows
    | Some (Resolved (None, None)) => DashState.resumes (dash (ui r)) = []
    | _ => DashState.resumes (dash (ui r)) = DashState.resumes (dash s)
    end.
Proof.
  intros W env s w user r. subst r.
  unfold Dashboard.fetchUserData. simpl.
  all_cases; reflexivity.
Qed.

(** ** The operations of the session context *)


(** X6. [signIn] makes exactly one call, the password sign-in with the
    given credentials, and always resolves: with [error: null] when the
    provider reports no error, with the provider's error when it does,
    and with an [Error] when the call is rejected.  It sets no state. *)
Theorem signIn_result :
  forall (W : Type) (env : Env W) (s : App) (w : W) (email password : string),
    let r := run env (AuthContext.signIn email password) s w in
    calls (trace r) = [auth_signInWithPassword email password]
    /\ ui r = s
    /\ match signIn_reply (trace r) with
       | Some (Resolved (_, None)) => result r = Resolved (ErrorResult.mk VNull)
       | Some (Resolved (_, Some e)) => result r = Resolved (ErrorResult.mk (VAuthError e))
       | Some (Rejected v) =>
           result r
           = Resolved (ErrorResult.mk
                         (if instanceof_Error v then v else VError "Unknown error"))
       | None => False
       end.
Proof.
  intros W env s w email password r. subst r.
  unfold AuthContext.signIn. simpl.
  all_cases; repeat split; reflexivity.
Qed.

(** X7. [signUp] and [signInWithMagicLink] first read the page origin.
    When that read throws, no request is sent.  Otherwise each sends
    one request whose redirect is the origin followed by
    [/auth/callback]; the sign-up carries the given name, or the empty
    string when the name is omitted or empty. *)
Theorem redirect_requests :
  forall (W : Type) (env : Env W) (s : App) (w : W)
         (email password : string) (name : option string),
    (let r := run env (AuthContext.signUp email password name) s w in
     match origin_reply (trace r) with
     | Some (Resolved origin) =>
         calls (trace r)
         = [window_location_origin;
            auth_signUp email password (origin ++ "/auth/callback")
              (match name with
               | Some n => if String.eqb n "" then "" else n
               | None => ""
               end)]
     | Some (Rejected _) => calls (trace r) = [window_location_origin]
     | None => False
     end)
    /\ (let r := run env (AuthContext.signInWithMagicLink email) s w in
        match origin_reply (trace r) with
        | Some (Resolved origin) =>
            calls (trace r)
            = [window_location_origin;
               auth_signInWithOtp email (origin ++ "/auth/callback")]
        | Some (Rejected _) => calls (trace r) = [window_location_origin]
        | None => False
        end).
Proof.
  intros W env s w email password name. split.
  - unfold AuthContext.signUp. simpl.
    all_cases; destruct name; reflexivity.
  - unfold AuthContext.signInWithMagicLink. simpl.
    all_cases; reflexivity.
Qed.

(** X8. [signInWithMagicLink] always resolves and sets no state.  Its
    error is the provider's error, null when the provider reports
    none, and the thrown value itself when the origin read or the
    request throws. *)
Theorem signInWithMagicLink_result :
  forall (W : Type) (env : Env W) (s : App) (w : W) (email : string),
    let r := run env (AuthContext.signInWithMagicLink email) s w in
    ui r = s
    /\ match origin_reply (trace r), otp_reply (trace r) with
       | Some (Resolved _), Some (Resolved None) =>
           result r = Resolved (ErrorResult.mk VNull)
       | Some (Resolved _), Some (Resolved (Some e)) =>
           result r = Resolved (ErrorResult.mk (VAuthError e))
       | Some (Resolved _), Some (Rejected v) => result r = Resolved (ErrorResult.mk v)
       | Some (Rejected v), None => result r = Resolved (ErrorResult.mk v)
       | _, _ => False
       end.
Proof.
  intros W env s w email r. subst r.
  unfold AuthContext.signInWithMagicLink. simpl.
  all_cases; repeat split; reflexivity.
Qed.

(** X9. [signOut] makes exactly one call, the provider's sign-out.  An
    error the provider reports is logged once and not passed on: the
    promise still resolves.  Only a rejected call makes [signOut]
    reject, and then with the value thrown. *)
Theorem signOut_outcome :
  forall (W : Type) (env : Env W) (s : App) (w : W),
    let r := run env AuthContext.signOut s w in
    calls (trace r) = [auth_signOut]
    /\ match signOut_reply (trace r) with
       | Some (Resolved None) => result r = Resolved tt /\ errors_logged (trace r) = []
       | Some (Resolved (Some _)) =>
           result r = Resolved tt
           /\ errors_logged (trace r) = ["Error signing out:"]
       | Some (Rejected v) => result r = Rejected v /\ errors_logged (trace r) = []
       | None => False
       end.
Proof.
  intros W env s w r. subst r.
  unfold AuthContext.signOut. simpl.
  all_cases; repeat split; reflexivity.
Qed.

(** X10. The session operations and the tables are kept apart.
    [signUp], [signIn], [signInWithMagicLink] and [signOut] never call a
    table, so none of them creates the profile row; [updateProfile] and
    [fetchUserData] never call the identity provider, and
    [fetchUserData] writes to a table only by the fallback insert. *)
Theorem calls_kept_apart :
  forall (W : Type) (env : Env W) (s : App) (w : W)
         (email password : string) (name : option string)
         (user : option User.t) (profileName : string) (avatarUrl : option string),
    forallb (fun c => negb (is_table_call c))
      (calls (trace (run env (AuthContext.signUp email password name) s w))) = true
    /\ forallb (fun c => negb (is_table_call c))
         (calls (trace (run env (AuthContext.signIn email password) s w))) = true
    /\ forallb (fun c => negb (is_table_call c))
         (calls (trace (run env (AuthContext.signInWithMagicLink email) s w))) = true
    /\ forallb (fun c => negb (is_table_call c))
         (calls (trace (run env AuthContext.signOut s w))) = true
    /\ forallb is_table_call
         (calls (trace (run env (AuthContext.updateProfile user profileName avatarUrl) s w)))
       = true
    /\ forallb is_table_call
         (calls (trace (run env (Dashboard.fetchUserData user) s w))) = true
    /\ length (List.filter is_table_write
                 (calls (trace (run env (Dashboard.fetchUserData user) s w))))
       = length (profile_inserts (trace (run env (Dashboard.fetchUserData user) s w))).
Proof.
  intros W env s w email password name user profileName avatarUrl.
  repeat split.
  - unfold AuthContext.signUp. simpl. all_cases; reflexivity.
  - unfold AuthContext.signIn. simpl. all_cases; reflexivity.
  - unfold AuthContext.signInWithMagicLink. simpl. all_cases; reflexivity.
  - unfold AuthContext.signOut. simpl. all_cases; reflexivity.
  - unfold AuthContext.updateProfile. destruct user; simpl; [|reflexivity].
    all_cases; reflexivity.
  - unfold Dashboard.fetchUserData. destruct user; simpl; [|reflexivity].
    all_cases; reflexivity.
  - unfold Dashboard.fetchUserData. destruct user; simpl; [|reflexivity].
    all_cases; reflexivity.
Qed.

(** ** The dashboard on the reference store *)

Lemma updateProfile_on_store (s : App) (w : Store.t) (user : User.t)
    (name : string) (avatarUrl : option string) :
  let r := run Store.env (AuthContext.updateProfile (Some user) name avatarUrl) s w in
  result r = Resolved (ErrorResult.mk VNull)
  /\ ui r = s
  /\ exists row,
       Store.profiles (world r) !! User.id user = Some row
       /\ Profile.name row = name
       /\ Profile.avatar_url row = or_else avatarUrl "".
Proof.
  intros r. subst r.
  destruct (Store.profiles w !! User.id user) as [row|] eqn:Hrow.
  - rewrite (updateProfile_on_existing_row s w user name avatarUrl row Hrow).
    simpl. rewrite lookup_insert_eq. eauto 6.
  - split; [|split; [apply updateProfile_sets_no_state|]].
    + unfold AuthContext.updateProfile. simpl.
      pose proof (clock_profiles w) as Hp1.
      destruct (Store.clock w) as [t0 w1]. simpl in *.
      unfold Store.update. rewrite Hp1, Hrow. simpl.
      pose proof (clock_profiles w1) as Hp2.
      destruct (Store.clock w1) as [t1 w2]. simpl in *.
      pose proof (clock_profiles w2) as Hp3.
      destruct (Store.clock w2) as [t2 w3]. simpl in *.
      unfold Store.insert. simpl. rewrite Hp3, Hp2, Hp1, Hrow. reflexivity.
    + destruct (updateProfile_on_missing_row s w user name avatarUrl Hrow)
        as (c & u & ->). eauto.
Qed.

Lemma fetchUserData_on_existing_row (s : App) (w : Store.t) (user : User.t)
    (row : Profile.t) :
  Store.profiles w !! User.id user = Some row ->
  let r := run Store.env (Dashboard.fetchUserData (Some user)) s w in
  DashState.profile (dash (ui r)) = Some row
  /\ DashState.newName (dash (ui r)) = Profile.name row
  /\ world r = w
  /\ profile_inserts (trace r) = [].
Proof.
  intros Hrow r. subst r.
  unfold Dashboard.fetchUserData. simpl.
  unfold Store.select_single. rewrite Hrow. simpl.
  rewrite or_empty_self. auto.
Qed.

Lemma fetchUserData_on_missing_row (s : App) (w : Store.t) (user : User.t) :
  Store.profiles w !! User.id user = None ->
  let r := run Store.env (Dashboard.fetchUserData (Some user)) s w in
  exists t1 t2,
    DashState.profile (dash (ui r)) = Some (Dashboard.default_profile user t1 t2)
    /\ Store.profiles (world r) !! User.id user
       = Some (Dashboard.default_profile user t1 t2).
Proof.
  intros Hrow r. subst r.
  unfold Dashboard.fetchUserData. simpl.
  unfold Store.select_single. rewrite Hrow. simpl.
  pose proof (clock_profiles w) as Hp1.
  destruct (Store.clock w) as [t1 w1]. simpl in *.
  pose proof (clock_profiles w1) as Hp2.
  destruct (Store.clock w1) as [t2 w2]. simpl in *.
  unfold Store.insert_select_single, Store.insert. simpl.
  rewrite Hp2, Hp1, Hrow. simpl. rewrite lookup_insert_eq. simpl.
  exists t1, t2. split; [reflexivity|]. apply lookup_insert_eq.
Qed.

(** X11. On the reference store [fetchUserData] leaves the dashboard
    holding exactly the user's stored row, which exists afterwards
    whether or not it did before.  A second run then inserts nothing,
    changes no row and ends with the same profile. *)
Theorem fetchUserData_agrees_with_store :
  forall (s : App) (w : Store.t) (user : User.t),
    let r1 := run Store.env (Dashboard.fetchUserData (Some user)) s w in
    let r2 := run Store.env (Dashboard.fetchUserData (Some user)) (ui r1) (world r1) in
    is_Some (DashState.profile (dash (ui r1)))
    /\ DashState.profile (dash (ui r1)) = Store.profiles (world r1) !! User.id user
    /\ profile_inserts (trace r2) = []
    /\ world r2 = world r1
    /\ DashState.profile (dash (ui r2)) = DashState.profile (dash (ui r1)).
Proof.
  intros s w user r1 r2.
  assert (H1 : exists row, DashState.profile (dash (ui r1)) = Some row
                           /\ Store.profiles (world r1) !! User.id user = Some row).
  { subst r1. destruct (Store.profiles w !! User.id user) as [row|] eqn:Hrow.
    - destruct (fetchUserData_on_existing_row s w user row Hrow) as (Hp & _ & Hw & _).
      exists row. rewrite Hp, Hw. auto.
    - destruct (fetchUserData_on_missing_row s w user Hrow) as (t1 & t2 & Hp & Hs).
      eauto. }
  destruct H1 as (row & Hp1 & Hs1).
  destruct (fetchUserData_on_existing_row (ui r1) (world r1) user row Hs1)
    as (Hp2 & _ & Hw2 & Hins).
  fold r2 in Hp2, Hw2, Hins.
  rewrite Hp1, Hs1, Hp2. repeat split; eauto.
Qed.

(** X12. On the reference store a profile edit always goes through.
    The stored row gets the new name and an empty [avatar_url], because
    the handler calls [updateProfile] without an avatar; the profile in
    memory only gets the new name, so it keeps the avatar it had, and
    it stays null when no profile was loaded. *)
Theorem handleUpdateProfile_on_store :
  forall (s : App) (w : Store.t) (user : User.t) (newName : string),
    let r := run Store.env
               (Dashboard.handleUpdateProfile (AuthContext.updateProfile (Some user))
                  newName) s w in
    result r = Resolved tt
    /\ Profile.name <$> (Store.profiles (world r) !! User.id user) = Some newName
    /\ Profile.avatar_url <$> (Store.profiles (world r) !! User.id user) = Some ""
    /\ DashState.profile (dash (ui r))
       = match DashState.profile (dash s) with
         | Some p =>
             Some (Profile.mk (Profile.id p) newName (Profile.avatar_url p)
                     (Profile.created_at p) (Profile.updated_at p))
         | None => None
         end
    /\ Profile.avatar_url <$> DashState.profile (dash (ui r))
       = Profile.avatar_url <$> DashState.profile (dash s)
    /\ DashState.editingProfile (dash (ui r)) = false.
Proof.
  intros s w user newName r. subst r.
  unfold Dashboard.handleUpdateProfile.
  change (AuthContext.updateProfile (Some user) newName None ≫= ?f)
    with (bind (AuthContext.updateProfile (Some user) newName None) f).
  rewrite run_try_catch_bind.
  pose proof (updateProfile_on_store s w user newName None) as H. cbv zeta in H.
  set (r0 := run Store.env (AuthContext.updateProfile (Some user) newName None) s w) in *.
  clearbody r0. destruct H as (Hres & Hui & row & Hrow & Hname & Havatar).
  destruct r0 as [res0 ui0 w0 tr0]. simpl in *. subst res0 ui0. simpl.
  rewrite Hrow. simpl. rewrite Hname, Havatar.
  destruct (DashState.profile (dash s)); repeat split; reflexivity.
Qed.

(** X13. On the reference store, what [updateProfile] writes is what
    the dashboard shows after its next fetch: the profile has the given
    name and [avatarUrl || ''], the edit field holds the name, no
    default profile is inserted, and the header shows the name, or
    "User" when the name written was empty. *)
Theorem updateProfile_then_fetchUserData :
  forall (s : App) (w : Store.t) (user : User.t)
         (name : string) (avatarUrl : option string),
    let r1 := run Store.env (AuthContext.updateProfile (Some user) name avatarUrl) s w in
    let r2 := run Store.env (Dashboard.fetchUserData (Some user)) (ui r1) (world r1) in
    Profile.name <$> DashState.profile (dash (ui r2)) = Some name
    /\ Profile.avatar_url <$> DashState.profile (dash (ui r2))
       = Some (or_else avatarUrl "")
    /\ DashState.newName (dash (ui r2)) = name
    /\ profile_inserts (trace r2) = []
    /\ Dashboard.displayed_name (dash (ui r2))
       = (if String.eqb name "" then "User" else name).
Proof.
  intros s w user name avatarUrl r1 r2.
  destruct (updateProfile_on_store s w user name avatarUrl)
    as (_ & _ & row & Hrow & Hname & Havatar).
  fold r1 in Hrow.
  destruct (fetchUserData_on_existing_row (ui r1) (world r1) user row Hrow)
    as (Hp & Hn & _ & Hins).
  fold r2 in Hp, Hn, Hins.
  unfold Dashboard.displayed_name. rewrite Hp, Hn, Hins. simpl.
  rewrite Hname, Havatar. auto.
Qed.

(** ** Sequences of auth events and of uploads *)

(** X14. After any non-empty sequence of auth events the session is the
    one the last event carried, the user is that session's user (null
    when the session is null) and the loading flag is cleared; no call
    is made and the dashboard's state is left alone.  With no event the
    state is as before. *)
Theorem auth_state_follows_last_event :
  forall (W : Type) (env : Env W) (evs : list (string * option Session.t))
         (s : App) (w : W),
    let r := run env (auth_events evs) s w in
    result r = Resolved tt
    /\ calls (trace r) = []
    /\ world r = w
    /\ dash (ui r) = dash s
    /\ auth (ui r)
       = match last evs with
         | Some (_, session) => AuthState.mk (Session.user <$> session) session false
         | None => auth s
         end.
Proof.
  intros W env evs. induction evs as [|[event session] evs IH]; intros s w r; subst r.
  - simpl. auto.
  - change (auth_events ((event, session) :: evs))
      with (bind (AuthContext.onAuthStateChange event session) (fun _ => auth_events evs)).
    rewrite run_bind. cbn [AuthContext.onAuthStateChange].
    set (s' := ui (run env (AuthContext.onAuthStateChange event session) s w)).
    assert (Hs' : s' = mkApp (AuthState.mk (Session.user <$> session) session false) (dash s))
      by reflexivity.
    assert (Hr : result (run env (AuthContext.onAuthStateChange event session) s w)
                 = Resolved tt) by reflexivity.
    assert (Hw : world (run env (AuthContext.onAuthStateChange event session) s w) = w)
      by reflexivity.
    assert (Ht : calls (trace (run env (AuthContext.onAuthStateChange event session) s w))
                 = []) by reflexivity.
    rewrite Hr, Hw. destruct (IH s' w) as (Hres & Hcalls & Hworld & Hdash & Hauth).
    cbn [and_then result ui world trace].
    assert (Happ : forall t1 t2, calls (t1 ++ t2)%list = (calls t1 ++ calls t2)%list).
    { induction t1 as [|[c o| | |] t1 IHt]; intros t2; simpl; rewrite ?IHt; reflexivity. }
    rewrite Happ, Ht, Hcalls, Hres, Hworld, Hdash, Hauth, Hs'.
    repeat split. destruct evs as [|e evs']; [reflexivity|].
    change (last ((event, session) :: e :: evs')) with (last (e :: evs')).
    destruct (last (e :: evs')) as [[? ?]|] eqn:Hlast; [reflexivity|].
    by apply last_None in Hlast.
Qed.





(** ** The resume card *)

Lemma length_append (a b : string) :
  String.length (a ++ b) = String.length a + String.length b.
Proof. induction a as [|c a IH]; simpl; [reflexivity|]. by rewrite IH. Qed.

Lemma substring_all (n : nat) (d : string) :
  String.length d <= n -> String.substring 0 n d = d.
Proof.
  revert n. induction d as [|c d IH]; intros n Hn.
  - by destruct n.
  - destruct n as [|n]; simpl in *; [lia|]. rewrite IH; [reflexivity|lia].
Qed.

Lemma substring_length (n : nat) (d : string) :
  n <= String.length d -> String.length (String.substring 0 n d) = n.
Proof.
  revert d. induction n as [|n IH]; intros d Hn.
  - by destruct d.
  - destruct d as [|c d]; simpl in *; [lia|]. rewrite IH; [reflexivity|lia].
Qed.

Lemma append_empty_r (a : string) : (a ++ "")%string = a.
Proof.
  induction a as [|c a IH]; [reflexivity|].
  change (String c (a ++ "")%string = String c a). by rewrite IH.
Qed.

(** X16. The preview of a job description is the description itself
    when it has at most 100 characters; a longer one is cut to its
    first 100 characters followed by three dots, 103 characters in
    all. *)
Theorem job_description_preview_cut :
  forall d : string,
    ResumeCard.job_description_preview d
    = (if Nat.ltb 100 (String.length d)
       then String.substring 0 100 d ++ "..."
       else d)
    /\ String.length (ResumeCard.job_description_preview d)
       = (if Nat.ltb 100 (String.length d) then 103 else String.length d).
Proof.
  intros d. unfold ResumeCard.job_description_preview.
  destruct (Nat.ltb 100 (String.length d)) eqn:Hlong.
  - split; [reflexivity|]. apply Nat.ltb_lt in Hlong.
    rewrite length_append, substring_length; [reflexivity|lia].
  - apply Nat.ltb_ge in Hlong.
    change (if false then "..." else "") with "".
    rewrite append_empty_r, substring_all; [split; reflexivity|lia].
Qed.

Lemma prefix_append (sub s : string) :
  String.prefix sub s = true <-> exists post, s = (sub ++ post)%string.
Proof.
  revert s. induction sub as [|c sub IH]; intros s.
  - split; [intros _; by exists s|intros _; by destruct s].
  - destruct s as [|c' s]; simpl; [split; [discriminate|intros [post [=]]]|].
    destruct (ascii_dec c c') as [->|Hne].
    + rewrite IH. split.
      * intros [post ->]. by exists post.
      * intros [post [= ->]]. by exists post.
    + split; [discriminate|]. intros [post [= <- _]]. done.
Qed.

Lemma includes_spec (s sub : string) :
  ResumeCard.includes s sub = true
  <-> exists pre post, s = (pre ++ sub ++ post)%string.
Proof.
  induction s as [|c s IH].
  - change (ResumeCard.includes "" sub) with (String.prefix sub "" || false).
    rewrite orb_false_r, prefix_append. split.
    + intros [post ->]. by exists "", post.
    + intros (pre & post & H). destruct pre as [|? ?]; [|discriminate].
      by exists post.
  - change (ResumeCard.includes (String c s) sub)
      with (String.prefix sub (String c s) || ResumeCard.includes s sub).
    rewrite orb_true_iff, prefix_append, IH. split.
    + intros [[post ->]|(pre & post & ->)].
      * by exists "", post.
      * by exists (String c pre), post.
    + intros (pre & post & H). destruct pre as [|c' pre].
      * left. by exists post.
      * right. injection H as -> ->. by exists pre, post.
Qed.

(** X17. A resume is labelled "PDF" exactly when its file type contains
    the lower-case text [pdf] somewhere; every other file type,
    whatever it is, is labelled "DOCX". *)
Theorem file_type_label_pdf_or_docx :
  forall file_type : string,
    (ResumeCard.file_type_label file_type = "PDF"
     <-> exists pre post, file_type = (pre ++ "pdf" ++ post)%string)
    /\ (ResumeCard.file_type_label file_type = "DOCX"
        <-> ~ exists pre post, file_type = (pre ++ "pdf" ++ post)%string).
Proof.
  intros file_type. unfold ResumeCard.file_type_label.
  pose proof (includes_spec file_type "pdf") as Hspec.
  destruct (ResumeCard.includes file_type "pdf"); split; split; try done.
  - intros _. by apply Hspec.
  - intros Hno. exfalso. apply Hno. by apply Hspec.
  - intros H. apply Hspec in H. discriminate.
  - intros _ H. apply Hspec in H. discriminate.
Qed.

(** ** The earlier dashboard *)

(** X18. The earlier [fetchUserData] never writes to a table.  It runs
    exactly like the current one, with the same calls, log and final
    state, unless the profile fetch reports "not found"; in that case
    it leaves the profile as it was, where the current one inserts a
    default profile. *)
Theorem earlier_fetchUserData_differs_on_missing_profile :
  forall (W : Type) (env : Env W) (s : App) (w : W) (user : User.t),
    let r0 := run env (Dashboard0.fetchUserData (Some user)) s w in
    let r1 := run env (Dashboard.fetchUserData (Some user)) s w in
    forallb (fun c => negb (is_table_write c)) (calls (trace r0)) = true
    /\ run env (Dashboard0.fetchUserData None) s w
       = run env (Dashboard.fetchUserData None) s w
    /\ match fetch_reply (trace r0) with
       | Some o =>
           if fetch_missed o
           then DashState.profile (dash (ui r0)) = DashState.profile (dash s)
                /\ exists t1 t2,
                     profile_inserts (trace r1) = [Dashboard.default_profile user t1 t2]
           else r0 = r1
       | None => False
       end.
Proof.
  intros W env s w user r0 r1. subst r0 r1.
  unfold Dashboard0.fetchUserData, Dashboard.fetchUserData. simpl.
  all_cases; (split; [reflexivity|split; [reflexivity|]]); eauto.
Qed.
